(** * The RabbitMQ user state module: [rabbitmq_user.present] / [rabbitmq_user.absent]

    A shallow embedding of [salt/states/rabbitmq_user.py].  The state
    functions talk to the execution module through [__salt__['rabbitmq.*']];
    every such call either returns a value or raises
    [CommandExecutionError].  A state function is therefore embedded as a
    finite interaction tree ([prog]) whose nodes are the backend calls, and
    it is run against an arbitrary backend, which yields the outcome of the
    call (a returned [ret] dictionary or an escaping Python exception) and
    the trace of backend calls that were made.

    The module is Python 2 code ([dict.iteritems], [salt.ext.six]); dicts
    are read with Python 2 semantics.  [__opts__['test']] is passed as the
    explicit argument [test].  The [log.debug] / [log.error] calls have no
    effect on the result and are left out, except on line 123, where
    evaluating the argument of [log.debug] raises. *)

From Stdlib Require Import Ascii String.
From stdpp Require Import gmap strings list fin_maps.

Open Scope string_scope.

(** ** Python values that appear in the module *)

(** The [tags] argument: [None], a list of tag names, or a single string
    that [_check_tags_changes] splits on whitespace. *)
Inductive tags_t : Type :=
| TagsNone
| TagsList (l : list string)
| TagsStr (s : string).

(** One element of [perms]: a dict from vhost to the permission list
    [[configure, write, read]], kept in its iteration order. *)
Abbreviation vhost_perms_t := (list (string * list string)).

(** The values stored under ['old'] / ['new'] in [ret['changes']]. *)
Inductive pyval : Type :=
| PyNone
| PyStr (s : string)
| PyList (l : list string)
| PySet (s : gset string)
| PyDict (d : gmap string (list string)).

#[global] Instance pyval_eq_dec : EqDecision pyval.
Proof. solve_decision. Defined.

Definition tags_val (t : tags_t) : pyval :=
  match t with
  | TagsNone => PyNone
  | TagsList l => PyList l
  | TagsStr s => PyStr s
  end.

(** Python truthiness, as used by [if new_tags:], [not newperms] and
    [any((force, perms, tags))]. *)
Definition truthy_tags (t : tags_t) : bool :=
  match t with
  | TagsNone => false
  | TagsList [] => false
  | TagsList (_ :: _) => true
  | TagsStr "" => false
  | TagsStr (String _ _) => true
  end.

Definition truthy_list {A} (l : list A) : bool :=
  match l with [] => false | _ :: _ => true end.

Definition truthy (v : pyval) : bool :=
  match v with
  | PyNone => false
  | PyStr "" => false
  | PyStr (String _ _) => true
  | PyList l => truthy_list l
  | PySet s => bool_decide (s ≠ ∅)
  | PyDict d => bool_decide (d ≠ ∅)
  end.

(** [str.split()] with no argument: split on runs of ASCII whitespace and
    drop empty pieces. *)
Definition is_space (a : ascii) : bool :=
  let n := nat_of_ascii a in
  ((n =? 32) || ((9 <=? n) && (n <=? 13)))%nat.

Fixpoint split_from (s : string) (word : string) : list string :=
  match s with
  | "" => match word with "" => [] | _ => [word] end
  | String a s' =>
      if is_space a then
        match word with
        | "" => split_from s' ""
        | _ => word :: split_from s' ""
        end
      else split_from s' (word +:+ String a "")
  end.

Definition split (s : string) : list string := split_from s "".

(** ** The [ret] dictionary *)

Module ret.
(** One entry of [ret['changes']]: [{'old': ..., 'new': ...}]. *)
Record change : Type := Change { old : pyval; new : pyval }.

#[global] Instance change_eq_dec : EqDecision change.
Proof. solve_decision. Defined.

(** [{'name': ..., 'result': ..., 'comment': ..., 'changes': {...}}];
    [result] is [True], [False] or [None]. *)
Record t : Type := Make {
  name : string;
  result : option bool;
  comment : string;
  changes : gmap string change
}.

Definition set_result (v : option bool) (r : t) : t :=
  Make (name r) v (comment r) (changes r).
Definition set_comment (v : string) (r : t) : t :=
  Make (name r) (result r) v (changes r).
(** [ret['changes'].update({k: c})] *)
Definition update (k : string) (c : change) (r : t) : t :=
  Make (name r) (result r) (comment r) (<[k:=c]> (changes r)).
End ret.

(** ** Backend calls, [__salt__['rabbitmq.<function>'](...)] *)

Module rabbitmq.
Inductive call : Type :=
| user_exists (name : string) (runas : option string)
| add_user (name : string) (password : option string) (runas : option string)
| change_password (name : string) (password : string) (runas : option string)
| clear_password (name : string) (runas : option string)
| list_users (runas : option string)
| set_user_tags (name : string) (tags : tags_t) (runas : option string)
| list_user_permissions (name : string) (runas : option string)
| set_permissions (vhost name conf write read : string) (runas : option string)
| delete_user (name : string) (runas : option string).

(** What a call returns when it does not raise. *)
Definition answer (c : call) : Type :=
  match c with
  | user_exists _ _ => bool
  | list_users _ => gmap string (gset string)
  | list_user_permissions _ _ => gmap string (list string)
  | _ => unit
  end.

(** The operations that change the broker, and those that only read. *)
Definition is_mutator (c : call) : bool :=
  match c with
  | add_user _ _ _ | change_password _ _ _ | clear_password _ _
  | set_user_tags _ _ _ | set_permissions _ _ _ _ _ _ | delete_user _ _ => true
  | _ => false
  end.

Definition is_read (c : call) : bool :=
  match c with
  | user_exists _ _ | list_users _ | list_user_permissions _ _ => true
  | _ => false
  end.

Definition is_list_users (c : call) : bool :=
  match c with list_users _ => true | _ => false end.
Definition is_add_user (c : call) : bool :=
  match c with add_user _ _ _ => true | _ => false end.
Definition is_change_password (c : call) : bool :=
  match c with change_password _ _ _ => true | _ => false end.
Definition is_clear_password (c : call) : bool :=
  match c with clear_password _ _ => true | _ => false end.
Definition is_set_user_tags (c : call) : bool :=
  match c with set_user_tags _ _ _ => true | _ => false end.
Definition is_set_permissions (c : call) : bool :=
  match c with set_permissions _ _ _ _ _ _ => true | _ => false end.
Definition is_delete_user (c : call) : bool :=
  match c with delete_user _ _ => true | _ => false end.
End rabbitmq.

(** ** Programs over the backend *)

(** Python exceptions other than [CommandExecutionError]; nothing in the
    module catches them. *)
Inductive pyexc : Type :=
| AttributeError
| KeyError
| UnboundLocalError
| IndexError.

(** A state function: it returns, raises, or calls the backend and goes on
    with either the error message of the [CommandExecutionError] ([inl]) or
    the value returned ([inr]). *)
Inductive prog (A : Type) : Type :=
| Return (a : A)
| Raise (e : pyexc)
| Salt (c : rabbitmq.call) (k : string + rabbitmq.answer c → prog A).
Arguments Return {A} a.
Arguments Raise {A} e.
Arguments Salt {A} c k.

Fixpoint bind {A B} (p : prog A) (f : A → prog B) : prog B :=
  match p with
  | Return a => f a
  | Raise e => Raise e
  | Salt c k => Salt c (fun r => bind (k r) f)
  end.

(** [try: x = __salt__[c] / except CommandExecutionError as err: handler] *)
Definition try_call {A} (c : rabbitmq.call)
    (handler : string → prog A) (k : rabbitmq.answer c → prog A) : prog A :=
  Salt c (fun r => match r with inl err => handler err | inr v => k v end).

(** A backend: some state, and a reaction to every call. *)
Record Backend : Type := {
  world : Type;
  exec : ∀ c : rabbitmq.call, world → (string + rabbitmq.answer c) * world
}.

(** One backend call as seen from outside: the call and, if it raised
    [CommandExecutionError], the message. *)
Record event : Type := Ev { ev_call : rabbitmq.call; ev_err : option string }.

Definition err_of {A} (r : string + A) : option string :=
  match r with inl e => Some e | inr _ => None end.

Inductive outcome (A : Type) : Type :=
| Returned (a : A)
| Raised (e : pyexc).
Arguments Returned {A} a.
Arguments Raised {A} e.

Fixpoint run {A} (B : Backend) (p : prog A) (w : world B)
  : outcome A * world B * list event :=
  match p with
  | Return a => (Returned a, w, [])
  | Raise e => (Raised e, w, [])
  | Salt c k =>
      let '(r, w1) := exec B c w in
      let '(o, w2, tr) := run B (k r) w1 in
      (o, w2, Ev c (err_of r) :: tr)
  end.

(** The outcome and the trace of a run. *)
Definition result_of {A} (B : Backend) (p : prog A) (w : world B) : outcome A :=
  (run B p w).1.1.
Definition trace_of {A} (B : Backend) (p : prog A) (w : world B) : list event :=
  (run B p w).2.

(** ** [_check_perms_changes] (lines 44-67) *)

Section check_perms.
(** The local variable [existing_perms].  It is assigned only inside
    [if existing is None:], so it is unbound ([None] here) whenever the
    caller passes [existing]; reading it then raises
    [UnboundLocalError]. *)
Variable existing_perms : option (gmap string (list string)).

(** [for vhost, perms in vhost_perms.iteritems(): ...] *)
Fixpoint check_vhost_perms (items : vhost_perms_t) (perm_need_change : bool)
  : pyexc + bool :=
  match items with
  | [] => inr perm_need_change
  | (vhost, perms) :: items' =>
      match existing_perms with
      | None => inl UnboundLocalError
      | Some ep =>
          match ep !! vhost with
          | Some cur =>
              check_vhost_perms items'
                (if decide (perms ≠ cur) then true else perm_need_change)
          | None => check_vhost_perms items' true
          end
      end
  end.

(** [for vhost_perms in newperms: ...] *)
Fixpoint check_newperms (newperms : list vhost_perms_t) (perm_need_change : bool)
  : pyexc + bool :=
  match newperms with
  | [] => inr perm_need_change
  | vhost_perms :: rest =>
      match check_vhost_perms vhost_perms perm_need_change with
      | inl e => inl e
      | inr b => check_newperms rest b
      end
  end.
End check_perms.

Definition _check_perms_changes (name : string) (newperms : list vhost_perms_t)
    (runas : option string) (existing : option (gmap string (list string)))
  : prog bool :=
  if negb (truthy_list newperms) then Return false
  else
    let loop existing_perms :=
      match check_newperms existing_perms newperms false with
      | inl e => Raise e
      | inr perm_need_change => Return perm_need_change
      end in
    match existing with
    | None =>
        try_call (rabbitmq.list_user_permissions name runas)
          (fun err => Return false)
          (fun existing_perms : gmap string (list string) =>
             loop (Some existing_perms))
    | Some _ => loop None
    end.

(** ** [_check_tags_changes] (lines 70-84) *)

Definition _check_tags_changes (name : string) (new_tags : tags_t)
    (runas : option string) : prog pyval :=
  if truthy_tags new_tags then
    let new_tags :=
      match new_tags with
      | TagsStr s => split s
      | TagsList l => l
      | TagsNone => []
      end in
    try_call (rabbitmq.list_users runas)
      (fun err => Return (PyList []))
      (fun all_users : gmap string (gset string) =>
         match all_users !! name with
         | None => Raise KeyError
         | Some current => Return (PySet (current ∖ list_to_set new_tags))
         end)
  else Return (PyList []).

(** ** [present] (lines 87-202) *)

(** [ret['comment'] = 'Error: {0}'.format(err); return ret] *)
Definition error (err : string) (r : ret.t) : prog ret.t :=
  Return (ret.set_comment ("Error: " +:+ err) r).

(** ['...'.foramt(name)] on line 123: [str] has no attribute [foramt], so
    evaluating the argument of [log.debug] raises [AttributeError]. *)
Definition str_foramt (fmt name : string) : pyexc + string :=
  inl AttributeError.

(** Lines 191-202: the final verdict. *)
Definition present_result (name : string) (test : bool) (r : ret.t) : prog ret.t :=
  let r := ret.set_result (Some true) r in
  if decide (ret.changes r = ∅) then
    Return (ret.set_comment ("'" +:+ name +:+ "' is already in the desired state.") r)
  else if test then
    Return (ret.set_comment ("Configuration for '" +:+ name +:+ "' will change.")
              (ret.set_result None r))
  else Return (ret.set_comment ("'" +:+ name +:+ "' was configured.") r).

(** Line 189: [ret['changes']['perms']['new'].update({vhost: perm})]. *)
Definition update_new_perms (vhost : string) (perm : list string) (r : ret.t)
  : pyexc + ret.t :=
  match ret.changes r !! "perms" with
  | None => inl KeyError
  | Some c =>
      match ret.new c with
      | PyDict d =>
          inr (ret.update "perms" (ret.Change (ret.old c) (PyDict (<[vhost:=perm]> d))) r)
      | PySet s =>
          inr (ret.update "perms" (ret.Change (ret.old c) (PySet ({[vhost]} ∪ s))) r)
      | PyNone | PyStr _ | PyList _ => inl AttributeError
      end
  end.

Section set_perms.
Variables (name : string) (runas : option string) (test : bool).
Variable existing_perms : gmap string (list string).

(** Lines 185-189. *)
Definition record_perm (vhost : string) (perm : list string) (r : ret.t)
    (k : ret.t → prog ret.t) : prog ret.t :=
  let r :=
    match ret.changes r !! "perms" with
    | None => ret.update "perms" (ret.Change (PyDict existing_perms) (PyStr "")) r
    | Some _ => r
    end in
  match update_new_perms vhost perm r with
  | inl e => Raise e
  | inr r' => k r'
  end.

(** Lines 176-189: [for vhost, perm in six.iteritems(vhost_perm): ...] *)
Fixpoint set_vhost_perms (items : vhost_perms_t) (r : ret.t)
    (k : ret.t → prog ret.t) : prog ret.t :=
  match items with
  | [] => k r
  | (vhost, perm) :: items' =>
      let next := record_perm vhost perm r (fun r' => set_vhost_perms items' r' k) in
      if negb test then
        match perm !! 0, perm !! 1, perm !! 2 with
        | Some conf, Some write, Some read =>
            try_call (rabbitmq.set_permissions vhost name conf write read runas)
              (fun err => error err r)
              (fun _ => next)
        | _, _, _ => Raise IndexError
        end
      else next
  end.

(** Lines 175-189: [for vhost_perm in perms: ...] *)
Fixpoint set_perms (perms : list vhost_perms_t) (r : ret.t)
    (k : ret.t → prog ret.t) : prog ret.t :=
  match perms with
  | [] => k r
  | vhost_perm :: rest => set_vhost_perms vhost_perm r (fun r' => set_perms rest r' k)
  end.
End set_perms.

(** Lines 168-189: permissions. *)
Definition present_perms (name : string) (perms : list vhost_perms_t)
    (runas : option string) (test : bool) (r : ret.t) : prog ret.t :=
  try_call (rabbitmq.list_user_permissions name runas)
    (fun err => error err r)
    (fun existing_perms : gmap string (list string) =>
       bind (_check_perms_changes name perms runas (Some existing_perms))
         (fun need =>
            if need then
              set_perms name runas test existing_perms perms r (present_result name test)
            else present_result name test r)).

(** Lines 157-167: tags. *)
Definition present_tags (name : string) (tags : tags_t) (perms : list vhost_perms_t)
    (runas : option string) (test : bool) (r : ret.t) : prog ret.t :=
  bind (_check_tags_changes name tags runas)
    (fun new_tags =>
       if truthy new_tags then
         let r' := ret.update "tags" (ret.Change (tags_val tags) new_tags) r in
         if negb test then
           try_call (rabbitmq.set_user_tags name tags runas)
             (fun err => error err r)
             (fun _ => present_perms name perms runas test r')
         else present_perms name perms runas test r'
       else present_perms name perms runas test r).

(** Lines 121-155: creation, or the forced password change. *)
Definition present_user (name : string) (password : option string) (force : bool)
    (tags : tags_t) (perms : list vhost_perms_t) (runas : option string)
    (test : bool) (user : bool) (r : ret.t) : prog ret.t :=
  let next := present_tags name tags perms runas test in
  if negb user then
    let r' := ret.update "user" (ret.Change (PyStr "") (PyStr name)) r in
    if negb test then
      match str_foramt "RabbitMQ user '{0}' doesn't exist - Creating." name with
      | inl e => Raise e
      | inr _ =>
          try_call (rabbitmq.add_user name password runas)
            (fun err => error err r)
            (fun _ => next r')
      end
    else next r'
  else if force then
    match password with
    | Some pw =>
        let r' := ret.update "password" (ret.Change (PyStr "") (PyStr "Set password.")) r in
        if negb test then
          try_call (rabbitmq.change_password name pw runas)
            (fun err => error err r)
            (fun _ => next r')
        else next r'
    | None =>
        let r' := ret.update "password" (ret.Change (PyStr "Removed password.") (PyStr "")) r in
        if negb test then
          try_call (rabbitmq.clear_password name runas)
            (fun err => error err r)
            (fun _ => next r')
        else next r'
    end
  else next r.

(** [present(name, password, force, tags, perms, runas)] with
    [__opts__['test']] passed as [test]. *)
Definition present (name : string) (password : option string) (force : bool)
    (tags : tags_t) (perms : list vhost_perms_t) (runas : option string)
    (test : bool) : prog ret.t :=
  let r := ret.Make name (Some false) "" ∅ in
  try_call (rabbitmq.user_exists name runas)
    (fun err => error err r)
    (fun user : bool =>
       if user && negb (force || truthy_list perms || truthy_tags tags) then
         Return (ret.set_comment ("User '" +:+ name +:+ "' is already present.") r)
       else present_user name password force tags perms runas test user r).

(** ** [absent] (lines 205-245) *)

Definition absent (name : string) (runas : option string) (test : bool)
  : prog ret.t :=
  let r := ret.Make name (Some false) "" ∅ in
  try_call (rabbitmq.user_exists name runas)
    (fun err => error err r)
    (fun user_exists : bool =>
       if user_exists then
         let r' := ret.update "name" (ret.Change (PyStr name) (PyStr "")) r in
         let verdict :=
           if test && bool_decide (ret.changes r' ≠ ∅) then
             Return (ret.set_comment ("The user '" +:+ name +:+ "' will be removed.")
                       (ret.set_result None r'))
           else
             Return (ret.set_comment ("The user '" +:+ name +:+ "' was removed.")
                       (ret.set_result (Some true) r')) in
         if negb test then
           try_call (rabbitmq.delete_user name runas)
             (fun err => error err r)
             (fun _ => verdict)
         else verdict
       else
         Return (ret.set_comment ("The user '" +:+ name +:+ "' is not present.")
                   (ret.set_result (Some true) r))).

(** ** A scripted backend, for concrete runs

    It answers every call from fixed data, fails the calls selected by
    [fails], and counts the calls it has served. *)

Record script : Type := {
  user_present : bool;
  users : gmap string (gset string);
  permissions : gmap string (list string);
  fails : rabbitmq.call → option string
}.

Definition reply (s : script) (c : rabbitmq.call) : rabbitmq.answer c :=
  match c return rabbitmq.answer c with
  | rabbitmq.user_exists _ _ => user_present s
  | rabbitmq.list_users _ => users s
  | rabbitmq.list_user_permissions _ _ => permissions s
  | _ => tt
  end.

Definition scripted (s : script) : Backend := {|
  world := nat;
  exec c n :=
    (match fails s c with Some msg => inl msg | None => inr (reply s c) end, S n)
|}.

Definition never_fails : rabbitmq.call → option string := fun _ => None.

(** Users and brokers used in the examples below. *)
Definition no_such_user : script :=
  {| user_present := false; users := ∅; permissions := ∅; fails := never_fails |}.

Definition bob_exists : script :=
  {| user_present := true; users := {[ "bob" := ∅ ]}; permissions := ∅;
     fails := never_fails |}.

Definition bob_monitoring : script :=
  {| user_present := true; users := {[ "bob" := {[ "monitoring" ]} ]};
     permissions := ∅; fails := never_fails |}.

Definition bob_admin_monitoring : script :=
  {| user_present := true;
     users := {[ "bob" := {[ "administrator"; "monitoring" ]} ]};
     permissions := ∅; fails := never_fails |}.

Definition list_users_down : script :=
  {| user_present := true; users := {[ "bob" := ∅ ]}; permissions := ∅;
     fails c := if rabbitmq.is_list_users c then Some "timeout" else None |}.

Definition permissions_down : script :=
  {| user_present := true; users := {[ "bob" := ∅ ]}; permissions := ∅;
     fails c :=
       match c with
       | rabbitmq.list_user_permissions _ _ => Some "timeout"
       | _ => None
       end |}.

Definition password_locked : script :=
  {| user_present := true; users := {[ "bob" := ∅ ]}; permissions := ∅;
     fails c :=
       if rabbitmq.is_clear_password c || rabbitmq.is_change_password c
       then Some "locked" else None |}.

(** ** Reasoning about every backend at once *)

(** [wp p Φ]: whatever the backend answers, the trace and the outcome of
    [p] satisfy [Φ]. *)
Fixpoint wp {A} (p : prog A) (Φ : list event → outcome A → Prop) : Prop :=
  match p with
  | Return a => Φ [] (Returned a)
  | Raise e => Φ [] (Raised e)
  | Salt c k => ∀ r, wp (k r) (λ tr o, Φ (Ev c (err_of r) :: tr) o)
  end.

(** ** Vocabulary of the reconciliation contract *)

(** How many calls of one kind a trace contains. *)
Definition count (P : rabbitmq.call → bool) (tr : list event) : nat :=
  length (List.filter (λ e, P (ev_call e)) tr).

(** Only read operations occur, and no mutator does. *)
Definition reads_only (tr : list event) : Prop :=
  Forall (λ e, rabbitmq.is_read (ev_call e) = true
               ∧ rabbitmq.is_mutator (ev_call e) = false) tr.

(** The failure of call [c] with message [msg] ended the run at once, with
    a failure result that carries the message. *)
Definition fatal (tr : list event) (o : outcome ret.t)
    (c : rabbitmq.call) (msg : string) : Prop :=
  last tr = Some (Ev c (Some msg)) ∧
  ∃ r, o = Returned r ∧ ret.result r = Some false
       ∧ ret.comment r = "Error: " +:+ msg.

(** Every failing backend call is fatal. *)
Definition every_failure_fatal (tr : list event) (o : outcome ret.t) : Prop :=
  ∀ c msg, Ev c (Some msg) ∈ tr → fatal tr o c msg.

(** Every failing backend call is fatal, except [list_users]: the run goes
    on after it and sets no tags. *)
Definition failure_fatal_unless_list_users
    (tr : list event) (o : outcome ret.t) : Prop :=
  ∀ c msg, Ev c (Some msg) ∈ tr →
    if rabbitmq.is_list_users c
    then last tr ≠ Some (Ev c (Some msg))
         ∧ count rabbitmq.is_set_user_tags tr = 0
    else fatal tr o c msg.

(** The two [changes['password']] entries. *)
Definition password_cleared : ret.change :=
  ret.Change (PyStr "Removed password.") (PyStr "").
Definition password_set : ret.change :=
  ret.Change (PyStr "") (PyStr "Set password.").

(** The result of a failed backend call made before anything was recorded. *)
Definition failed (name msg : string) : ret.t :=
  ret.Make name (Some false) ("Error: " +:+ msg) ∅.

(** The no-op verdict of line 193. *)
Definition already_in_desired_state (name : string) : ret.t :=
  ret.Make name (Some true) ("'" +:+ name +:+ "' is already in the desired state.") ∅.

(** Forced credential handling: exactly one of clear / set is called, and
    a clear comes with its [changes['password']] entry. *)
Definition one_credential_call (password : option string)
    (tr : list event) (o : outcome ret.t) : Prop :=
  match password with
  | None =>
      count rabbitmq.is_clear_password tr = 1
      ∧ count rabbitmq.is_change_password tr = 0
      ∧ ∃ r, o = Returned r ∧ ret.changes r !! "password" = Some password_cleared
  | Some _ =>
      count rabbitmq.is_change_password tr = 1
      ∧ count rabbitmq.is_clear_password tr = 0
  end.

(** The same, with the entry promised only once [clear_password] went
    through; a failing [clear_password] yields [failed]. *)
Definition one_credential_call_recorded (name : string) (password : option string)
    (runas : option string) (tr : list event) (o : outcome ret.t) : Prop :=
  match password with
  | None =>
      count rabbitmq.is_clear_password tr = 1
      ∧ count rabbitmq.is_change_password tr = 0
      ∧ (Ev (rabbitmq.clear_password name runas) None ∈ tr →
         ∀ r, o = Returned r →
              ret.changes r !! "password" = Some password_cleared)
      ∧ (∀ msg, Ev (rabbitmq.clear_password name runas) (Some msg) ∈ tr →
                o = Returned (failed name msg))
  | Some _ =>
      count rabbitmq.is_change_password tr = 1
      ∧ count rabbitmq.is_clear_password tr = 0
  end.

(** A forced call always records a password entry. *)
Definition force_always_records (o : outcome ret.t) : Prop :=
  ∀ r, o = Returned r →
       is_Some (ret.changes r !! "password") ∧ ret.changes r ≠ ∅.

(** A forced call is never the no-op; it records a password entry unless
    the credential call itself failed. *)
Definition force_never_noop (name : string) (tr : list event)
    (o : outcome ret.t) : Prop :=
  ∀ r, o = Returned r →
       r ≠ already_in_desired_state name
       ∧ ret.comment r ≠ ret.comment (already_in_desired_state name)
       ∧ (is_Some (ret.changes r !! "password")
          ∨ ∃ c msg, Ev c (Some msg) ∈ tr
                     ∧ rabbitmq.is_clear_password c || rabbitmq.is_change_password c = true
                     ∧ r = failed name msg).

(** ** Further vocabulary for [rabbitmq_user] *)

(** Some desired vhost entry is missing from the listed permissions, or
    listed with other permissions. *)
Definition perms_differ (existing_perms : gmap string (list string))
    (newperms : list vhost_perms_t) : Prop :=
  ∃ vhost_perms vhost perms,
    vhost_perms ∈ newperms ∧ (vhost, perms) ∈ vhost_perms
    ∧ existing_perms !! vhost ≠ Some perms.

(** The desired tags as a set: a string counts for its pieces. *)
Definition desired_tags (tags : tags_t) : gset string :=
  list_to_set
    match tags with
    | TagsStr s => split s
    | TagsList l => l
    | TagsNone => []
    end.

(** The name under which a backend call is looked up in [__salt__]. *)
Definition op_name (c : rabbitmq.call) : string :=
  match c with
  | rabbitmq.user_exists _ _ => "rabbitmq.user_exists"
  | rabbitmq.add_user _ _ _ => "rabbitmq.add_user"
  | rabbitmq.change_password _ _ _ => "rabbitmq.change_password"
  | rabbitmq.clear_password _ _ => "rabbitmq.clear_password"
  | rabbitmq.list_users _ => "rabbitmq.list_users"
  | rabbitmq.set_user_tags _ _ _ => "rabbitmq.set_user_tags"
  | rabbitmq.list_user_permissions _ _ => "rabbitmq.list_user_permissions"
  | rabbitmq.set_permissions _ _ _ _ _ _ => "rabbitmq.set_permissions"
  | rabbitmq.delete_user _ _ => "rabbitmq.delete_user"
  end.

(** The functions called in a trace, in order. *)
Definition ops (tr : list event) : list string :=
  map (λ e, op_name (ev_call e)) tr.

(** A run that starts with [user_exists name runas] and calls no backend
    function twice. *)
Definition starts_with_user_exists_no_retry (name : string)
    (runas : option string) (tr : list event) : Prop :=
  (∃ err rest, tr = Ev (rabbitmq.user_exists name runas) err :: rest)
  ∧ NoDup (ops tr).

(** Every [set_user_tags] call of the trace is made in apply mode, with
    the tags as passed, once [list_users] has answered. *)
Definition tags_set_as_given (name : string) (tags : tags_t)
    (runas : option string) (test : bool) (tr : list event) : Prop :=
  ∀ e, e ∈ tr → rabbitmq.is_set_user_tags (ev_call e) = true →
       test = false
       ∧ truthy_tags tags = true
       ∧ ev_call e = rabbitmq.set_user_tags name tags runas
       ∧ Ev (rabbitmq.list_users runas) None ∈ tr.

(** What every result returned by [present] looks like. *)
Definition present_result_shape (name : string) (test : bool) (r : ret.t) : Prop :=
  ret.name r = name
  ∧ ret.changes r !! "perms" = None
  ∧ ¬ (is_Some (ret.changes r !! "user") ∧ is_Some (ret.changes r !! "password"))
  ∧ (ret.result r = None →
     test = true ∧ ret.changes r ≠ ∅
     ∧ ret.comment r = "Configuration for '" +:+ name +:+ "' will change.")
  ∧ (test = true → ret.result r = Some true → ret.changes r = ∅).

(** In apply mode the recorded changes are backed by backend calls that
    went through. *)
Definition changes_backed_by_calls (tr : list event) (r : ret.t) : Prop :=
  ret.changes r !! "user" = None
  ∧ (is_Some (ret.changes r !! "password") →
     ∃ c, Ev c None ∈ tr
          ∧ rabbitmq.is_clear_password c || rabbitmq.is_change_password c = true)
  ∧ (is_Some (ret.changes r !! "tags") →
     ∃ c, Ev c None ∈ tr ∧ rabbitmq.is_set_user_tags c = true).

(** The two shapes of a run of [absent]: [user_exists] alone, or
    [user_exists] followed by [delete_user], the latter only in apply
    mode. *)
Definition absent_trace (name : string) (runas : option string) (test : bool)
    (tr : list event) : Prop :=
  (∃ err, tr = [Ev (rabbitmq.user_exists name runas) err])
  ∨ (test = false
     ∧ ∃ err, tr = [Ev (rabbitmq.user_exists name runas) None;
                    Ev (rabbitmq.delete_user name runas) err]).

(** The [changes] of [absent]: nothing, or the removal of the name. *)
Definition absent_changes (name : string) (changes : gmap string ret.change) : Prop :=
  changes = ∅ ∨ changes = {[ "name" := ret.Change (PyStr name) (PyStr "") ]}.

(** * [salt/modules/znc.py]

    [hashlib], [random] and [__salt__['cmd.run']] are outside the
    repository.  A hash object is its algorithm name and the bytes fed to
    it so far, and the digest function is a parameter; the random
    generator is a parameter that draws indices; [cmd.run] is a parameter
    that maps the command line to its output.  The module is Python 2 code
    ([xrange]); strings are byte strings. *)

Module hashlib.
Record t : Type := Hash { name : string; fed : string }.

Definition sha256 (data : string) : t := Hash "sha256" data.
Definition md5 (data : string) : t := Hash "md5" data.
(** [h.update(data)] *)
Definition update (h : t) (data : string) : t := Hash (name h) (fed h +:+ data).
(** [h.hexdigest()], for the digest function [digest algorithm bytes]. *)
Definition hexdigest (digest : string → string → string) (h : t) : string :=
  digest (name h) (fed h).
End hashlib.

Module random.
(** A generator: [randbelow n g] draws an index for a sequence of length
    [n] and yields the next state. *)
Record source : Type := {
  state : Type;
  randbelow : nat → state → nat * state
}.

(** The generator draws indices inside the sequence. *)
Definition in_range (R : source) : Prop :=
  ∀ n g, (0 < n)%nat → ((randbelow R n g).1 < n)%nat.

(** [random.choice(seq)]: [seq[i]] for the drawn index [i]. *)
Definition choice {A} (R : source) (seq : list A) (g : state R)
  : (pyexc + A) * state R :=
  let '(i, g') := randbelow R (length seq) g in
  (match seq !! i with Some a => inr a | None => inl IndexError end, g').
End random.

Module znc.
(** The characters a salt is drawn from (lines 38-40). *)
Definition c : string :=
  "abcdefghijklmnopqrstuvwxyzABCDEFGHIJKLMNOPQRSTUVWXYZ0123456789!?.,:;/*-+_()".

(** What [_makepass] returns: [NotImplemented] or the dict [r]. *)
Inductive makepass_t : Type :=
| NotImplemented
| Password (r : gmap string string).

Section makepass.
Variable digest : string → string → string.
Variable R : random.source.

(** [''.join(random.choice(c) for x in xrange(n))] *)
Fixpoint join_choices (n : nat) (g : random.state R)
  : (pyexc + string) * random.state R :=
  match n with
  | 0 => (inr "", g)
  | S n' =>
      match random.choice R (list_ascii_of_string c) g with
      | (inl e, g1) => (inl e, g1)
      | (inr a, g1) =>
          match join_choices n' g1 with
          | (inl e, g2) => (inl e, g2)
          | (inr s, g2) => (inr (String a s), g2)
          end
      end
  end.

(** [_makepass(password, hasher='sha256')] (lines 26-50). *)
Definition _makepass (password hasher : string) (g : random.state R)
  : (pyexc + makepass_t) * random.state R :=
  match (if decide (hasher = "sha256") then Some (hashlib.sha256 password)
         else if decide (hasher = "md5") then Some (hashlib.md5 password)
         else None) with
  | None => (inr NotImplemented, g)
  | Some h =>
      match join_choices 20 g with
      | (inl e, g') => (inl e, g')
      | (inr salt, g') =>
          let r : gmap string string :=
            <["Salt" := salt]> (<["Method" := hashlib.name h]> ∅) in
          match r !! "Salt" with
          | None => (inl KeyError, g')
          | Some s =>
              let h := hashlib.update h s in
              (inr (Password (<["Hash" := hashlib.hexdigest digest h]> r)), g')
          end
      end
  end.
End makepass.

(** [str.splitlines()] of a byte string: lines end at [\n], [\r] or
    [\r\n]; the line ends are dropped. *)
Fixpoint splitlines_from (s line : string) : list string :=
  match s with
  | "" => match line with "" => [] | _ => [line] end
  | String a s' =>
      if Ascii.eqb a "010" then line :: splitlines_from s' ""
      else if Ascii.eqb a "013" then
        match s' with
        | String b s'' =>
            if Ascii.eqb b "010" then line :: splitlines_from s'' ""
            else line :: splitlines_from s' ""
        | "" => line :: splitlines_from s' ""
        end
      else splitlines_from s' (line +:+ String a "")
  end.

Definition splitlines (s : string) : list string := splitlines_from s "".

(** [s.split(sep)] for a non-empty separator, as on line 66: [skip]
    counts the characters of a separator that was just matched and are
    still to be passed over. *)
Fixpoint split_on_from (sep s : string) (skip : nat) (piece : string)
  : list string :=
  match s with
  | "" => [piece]
  | String a s' =>
      match skip with
      | S k => split_on_from sep s' k piece
      | 0 =>
          if String.prefix sep s
          then piece :: split_on_from sep s' (String.length sep - 1) ""
          else split_on_from sep s' 0 (piece +:+ String a "")
      end
  end.

Definition split_on (sep s : string) : list string := split_on_from sep s 0 "".

(** [version()] (lines 54-67), for the output [cmd_run cmd] of
    [__salt__['cmd.run'](cmd)]. *)
Definition version (cmd_run : string → string) : pyexc + string :=
  let cmd := "znc --version" in
  let out := splitlines (cmd_run cmd) in
  match out !! 0 with
  | None => inl IndexError
  | Some line =>
      let ret := split_on " - " line in
      match ret !! 0 with
      | None => inl IndexError
      | Some v => inr v
      end
  end.
End znc.

(** A generator for the examples: it walks through the sequence. *)
Definition round_robin : random.source :=
  {| random.state := nat; random.randbelow n g := (g mod n, S g) |}.

(** A digest for the examples; it only tags its input. *)
Definition tagging_digest (algorithm data : string) : string :=
  algorithm +:+ ":" +:+ data.

(** [s] starts with [sep]. *)
Definition starts_with (sep s : string) : Prop := ∃ t, s = sep +:+ t.

(** A line break starts here. *)
Definition at_line_break (s : string) : Prop :=
  starts_with (String "010" "") s ∨ starts_with (String "013" "") s.

(** No character of [s] is a line break. *)
Definition one_line (s : string) : Prop :=
  ∀ a, a ∈ list_ascii_of_string s → a ≠ "010"%char ∧ a ≠ "013"%char.

(** [sep] starts nowhere inside [v] when [v] is followed by [rest]. *)
Definition first_at (sep v rest : string) : Prop :=
  ∀ v1 v2, v = v1 +:+ v2 → v2 ≠ "" → ¬ starts_with sep (v2 +:+ rest).

(** [v] is the first line of [out], up to and without the first
    [" - "]. *)
Definition version_of (out v : string) : Prop :=
  ∃ line after_line after_version,
    out = line +:+ after_line
    ∧ one_line line
    ∧ (after_line = "" ∨ at_line_break after_line)
    ∧ line = v +:+ after_version
    ∧ (after_version = "" ∨ starts_with " - " after_version)
    ∧ first_at " - " v after_version.

(** * Properties *)

(** ** [wp] is sound for every backend, and follows [bind] *)

Lemma wp_sound {A} (p : prog A) Φ :
  wp p Φ → ∀ B w, Φ (trace_of B p w) (result_of B p w).
Proof.
  unfold trace_of, result_of.
  revert Φ. induction p as [a | e | c k IH]; intros Φ Hwp B w; cbn in *; try done.
  destruct (exec B c w) as [r w1].
  specialize (IH r _ (Hwp r) B w1).
  destruct (run B (k r) w1) as [[o w2] tr]. exact IH.
Qed.

Lemma wp_answered {A} B c (k : string + rabbitmq.answer c → prog A) w r w1 Φ :
  exec B c w = (r, w1) →
  wp (k r) (λ tr o, Φ (Ev c (err_of r) :: tr) o) →
  Φ (trace_of B (Salt c k) w) (result_of B (Salt c k) w).
Proof.
  intros Hexec Hwp. unfold trace_of, result_of. cbn. rewrite Hexec.
  pose proof (wp_sound _ _ Hwp B w1) as H. unfold trace_of, result_of in H.
  destruct (run B (k r) w1) as [[o w2] tr]. exact H.
Qed.

(** ** [_check_perms_changes] when [existing] is passed

    [present] always passes [existing=existing_perms].  The local
    [existing_perms] of [_check_perms_changes] is then never bound: the
    function returns [False] when there is nothing to iterate over and
    raises [UnboundLocalError] at the first [vhost in existing_perms]. *)

Lemma check_vhost_perms_unbound items b :
  check_vhost_perms None items b = inr b ∨
  check_vhost_perms None items b = inl UnboundLocalError.
Proof. destruct items as [|[vhost perms] items]; cbn; auto. Qed.

Lemma check_newperms_unbound newperms b :
  check_newperms None newperms b = inr b ∨
  check_newperms None newperms b = inl UnboundLocalError.
Proof.
  induction newperms as [|vhost_perms rest IH]; cbn; [auto|].
  destruct (check_vhost_perms_unbound vhost_perms b) as [-> | ->]; auto.
Qed.

Lemma _check_perms_changes_existing name newperms runas existing :
  _check_perms_changes name newperms runas (Some existing) = Return false ∨
  _check_perms_changes name newperms runas (Some existing) = Raise UnboundLocalError.
Proof.
  unfold _check_perms_changes. destruct (truthy_list newperms); cbn; [|auto].
  destruct (check_newperms_unbound newperms false) as [-> | ->]; auto.
Qed.

(** ** Symbolic execution of the state functions *)

Ltac case_split x :=
  let E := fresh "E" in
  destruct x eqn:E; try (simpl in E; discriminate E).

Ltac wp_step :=
  lazymatch goal with
  | |- wp (Return _) _ => cbn [wp]
  | |- wp (Raise _) _ => cbn [wp]
  | |- wp (Salt _ _) _ => cbn [wp]; intros [?err | ?v]
  | |- wp (try_call _ _ _) _ => unfold try_call
  | |- wp (error _ _) _ => unfold error
  | |- wp (bind (_check_perms_changes ?n ?p ?r (Some ?e)) _) _ =>
      let H := fresh "H" in
      destruct (_check_perms_changes_existing n p r e) as [H | H];
      rewrite H; clear H; cbn [bind]
  | |- wp (bind (_check_tags_changes _ _ _) _) _ => unfold _check_tags_changes
  | |- wp (bind (if ?b then _ else _) _) _ => case_split b
  | |- wp (bind (match ?x with _ => _ end) _) _ => case_split x
  | |- wp (bind _ _) _ => cbn [bind try_call]
  | |- wp (match str_foramt _ _ with _ => _ end) _ => unfold str_foramt
  | |- wp (if decide (?m = ∅) then _ else _) _ =>
      let H := fresh "Hchanges" in
      destruct (decide (m = ∅)) as [H | H];
      [try (exfalso; cbn in H; revert H; apply insert_non_empty) |]
  | |- wp (if ?b then _ else _) _ => case_split b
  | |- wp (match ?x with _ => _ end) _ => case_split x
  | |- wp (present_user _ _ _ _ _ _ _ _ _) _ => unfold present_user
  | |- wp (present_tags _ _ _ _ _ _) _ => unfold present_tags
  | |- wp (present_perms _ _ _ _ _) _ => unfold present_perms
  | |- wp (present_result _ _ _) _ => unfold present_result
  | |- wp (present _ _ _ _ _ _ _) _ => unfold present
  | |- wp (absent _ _ _) _ => unfold absent
  | |- wp (let x := _ in _) _ => cbv zeta
  end.

Ltac wp_run := repeat wp_step.

(** ** Creating a user *)

(** In apply mode a missing user is never created: the misspelt
    [.foramt] raises before [add_user] is reached. *)
Lemma present_missing_user_apply B w w1 name password force tags perms runas :
  exec B (rabbitmq.user_exists name runas) w = (inr false, w1) →
  run B (present name password force tags perms runas false) w
  = (Raised AttributeError, w1, [Ev (rabbitmq.user_exists name runas) None]).
Proof. intros H. unfold present, try_call. cbn. rewrite H. reflexivity. Qed.

(** C1 (code defect).  Scenario A of the specification: user "bob" is
    absent and [present("bob", password="p", tags=[], perms=[])] runs in
    apply mode.  The contract expects one [add_user] call and a successful
    result with [changes = {user: {old: '', new: 'bob'}}]; the code raises
    [AttributeError] right after [user_exists] and never calls
    [add_user]. *)
Theorem present_create_raises_AttributeError :
  let p := present "bob" (Some "p") false (TagsList []) [] None false in
  result_of (scripted no_such_user) p 0 = Raised AttributeError
  ∧ trace_of (scripted no_such_user) p 0 = [Ev (rabbitmq.user_exists "bob" None) None]
  ∧ count rabbitmq.is_add_user (trace_of (scripted no_such_user) p 0) = 0.
Proof.
  intros p.
  assert (Hrun : run (scripted no_such_user) p 0
                 = (Raised AttributeError, 1,
                    [Ev (rabbitmq.user_exists "bob" None) None]))
    by (apply (present_missing_user_apply (scripted no_such_user) 0 1); reflexivity).
  unfold result_of, trace_of. rewrite Hrun. repeat split.
Qed.

(** ** Exceptions that reach the caller *)

(** [absent] itself always returns a result. *)
Lemma absent_returns B w name runas test :
  ∃ r, result_of B (absent name runas test) w = Returned r.
Proof.
  apply (wp_sound (absent name runas test) (λ _ o, ∃ r, o = Returned r)).
  wp_run; cbn; eauto.
Qed.

(** C2 (code defect).  The contract says that [present] never raises.
    Three calls of [present] on "bob" that end in a Python exception
    instead of a result: creating the user in apply mode
    ([AttributeError], the defect of C1); a dry run for a user who does
    not exist yet and is to get a tag ([KeyError] from
    [list_users()[name]]); and any call with a permission to reconcile
    ([UnboundLocalError], the defect of C5). *)
Theorem present_raises_to_caller :
  result_of (scripted no_such_user)
    (present "bob" (Some "p") false (TagsList []) [] None false) 0
  = Raised AttributeError
  ∧ result_of (scripted no_such_user)
      (present "bob" (Some "p") false (TagsList ["administrator"]) [] None true) 0
    = Raised KeyError
  ∧ result_of (scripted bob_exists)
      (present "bob" None false TagsNone [[("/", [".*"; ".*"; ".*"])]] None false) 0
    = Raised UnboundLocalError.
Proof. repeat split; reflexivity. Qed.

(** ** The short-circuit for an existing user *)

(** Lines 116-119 return [ret] as it was initialised: [result] is still
    [False]. *)
Lemma present_short_circuit B w w1 name password tags runas test :
  exec B (rabbitmq.user_exists name runas) w = (inr true, w1) →
  truthy_tags tags = false →
  run B (present name password false tags [] runas test) w
  = (Returned (ret.Make name (Some false) ("User '" +:+ name +:+ "' is already present.") ∅),
     w1, [Ev (rabbitmq.user_exists name runas) None]).
Proof.
  intros H Htags. unfold present, try_call. cbn. rewrite H, Htags. reflexivity.
Qed.

(** C3 (code defect).  "bob" exists and [present("bob")] is called with
    [force=False], [tags=[]], [perms=[]] .  The contract expects
    [result=True]; the code returns the "already present" comment and
    empty changes, but with [result=False], i.e. a failed state. *)
Theorem present_already_present_result_False :
  run (scripted bob_exists) (present "bob" None false (TagsList []) [] None false) 0
  = (Returned (ret.Make "bob" (Some false) "User 'bob' is already present." ∅),
     1, [Ev (rabbitmq.user_exists "bob" None) None]).
Proof.
  apply (present_short_circuit (scripted bob_exists) 0 1 "bob" None (TagsList []) None false);
    reflexivity.
Qed.

(** ** Tags *)

(** What [_check_tags_changes] returns for a non-empty list of tags when
    the user is listed: the observed tags that are not desired. *)
Lemma _check_tags_changes_listed B w w1 name tag tags runas
    (all_users : gmap string (gset string)) current :
  exec B (rabbitmq.list_users runas) w = (inr all_users, w1) →
  all_users !! name = Some current →
  result_of B (_check_tags_changes name (TagsList (tag :: tags)) runas) w
  = Returned (PySet (current ∖ list_to_set (tag :: tags))).
Proof.
  intros H Hname. unfold result_of, _check_tags_changes, try_call. cbn.
  rewrite H. cbn. rewrite Hname. reflexivity.
Qed.

(** C4 (code defect).  "bob" has the tag [monitoring] and the desired
    tags are [monitoring, user] (the example of the module docstring).
    The contract takes the delta to be desired − observed, here [{user}];
    [_check_tags_changes] computes observed − desired, here the empty set,
    so [present] calls no [set_user_tags] and reports the no-op.
    Conversely, with observed [{administrator, monitoring}] and desired
    [monitoring] the delta is [{administrator}] and [set_user_tags] is
    called with the desired list alone. *)
Theorem check_tags_changes_observed_minus_desired :
  let desired := ["monitoring"; "user"] in
  let observed : gset string := {[ "monitoring" ]} in
  result_of (scripted bob_monitoring)
    (_check_tags_changes "bob" (TagsList desired) None) 0
  = Returned (PySet (observed ∖ list_to_set desired))
  ∧ observed ∖ list_to_set desired = (∅ : gset string)
  ∧ list_to_set desired ∖ observed = ({[ "user" ]} : gset string)
  ∧ run (scripted bob_monitoring)
      (present "bob" None false (TagsList desired) [] None false) 0
    = (Returned (already_in_desired_state "bob"), 3,
       [Ev (rabbitmq.user_exists "bob" None) None;
        Ev (rabbitmq.list_users None) None;
        Ev (rabbitmq.list_user_permissions "bob" None) None])
  ∧ trace_of (scripted bob_admin_monitoring)
      (present "bob" None false (TagsList ["monitoring"]) [] None false) 0
    = [Ev (rabbitmq.user_exists "bob" None) None;
       Ev (rabbitmq.list_users None) None;
       Ev (rabbitmq.set_user_tags "bob" (TagsList ["monitoring"]) None) None;
       Ev (rabbitmq.list_user_permissions "bob" None) None].
Proof. repeat split; vm_compute; reflexivity. Qed.

(** ** Permissions *)

(** [present] never reaches [set_permissions], whatever the arguments and
    the backend. *)
Lemma present_never_sets_permissions B w name password force tags perms runas test :
  count rabbitmq.is_set_permissions
    (trace_of B (present name password force tags perms runas test) w) = 0.
Proof.
  apply (wp_sound (present name password force tags perms runas test)
           (λ tr _, count rabbitmq.is_set_permissions tr = 0)).
  wp_run; reflexivity.
Qed.

(** With [existing] passed and at least one vhost to look at,
    [_check_perms_changes] raises. *)
Lemma _check_perms_changes_entry name vhost perm items rest runas existing :
  _check_perms_changes name (((vhost, perm) :: items) :: rest) runas (Some existing)
  = Raise UnboundLocalError.
Proof. reflexivity. Qed.

(** So does [present] for an existing user, as soon as [perms] starts with
    a vhost entry. *)
Lemma present_perms_entry_raises B w w1 w2 name password vhost perm items rest
    runas test (existing : gmap string (list string)) :
  exec B (rabbitmq.user_exists name runas) w = (inr true, w1) →
  exec B (rabbitmq.list_user_permissions name runas) w1 = (inr existing, w2) →
  run B (present name password false TagsNone (((vhost, perm) :: items) :: rest)
           runas test) w
  = (Raised UnboundLocalError, w2,
     [Ev (rabbitmq.user_exists name runas) None;
      Ev (rabbitmq.list_user_permissions name runas) None]).
Proof.
  intros Hexists Hperms.
  unfold present, present_user, present_tags, present_perms, try_call.
  cbn. rewrite Hexists. cbn. rewrite Hperms. reflexivity.
Qed.

(** C5 (code defect).  "bob" exists with no permissions and
    [present("bob", perms=[{'/': ['.*', '.*', '.*']}])] runs in apply
    mode.  The contract expects exactly one [set_permissions] call for
    [/]; the code raises [UnboundLocalError] inside
    [_check_perms_changes] and makes no [set_permissions] call. *)
Theorem present_perms_raises_UnboundLocalError :
  run (scripted bob_exists)
    (present "bob" None false TagsNone [[("/", [".*"; ".*"; ".*"])]] None false) 0
  = (Raised UnboundLocalError, 2,
     [Ev (rabbitmq.user_exists "bob" None) None;
      Ev (rabbitmq.list_user_permissions "bob" None) None]).
Proof.
  apply (present_perms_entry_raises (scripted bob_exists) 0 1 2
           "bob" None "/" [".*"; ".*"; ".*"] [] [] None false ∅);
    reflexivity.
Qed.

(** ** Backend failures *)

(** Closing a leaf of the symbolic execution when the property is about
    the failed calls of the trace. *)
Ltac failed_calls :=
  let Hin := fresh "Hin" in
  intros ? ? Hin; cbn [err_of] in Hin;
  repeat (apply elem_of_cons in Hin as [Hin | Hin]);
  try (apply elem_of_nil in Hin; destruct Hin);
  try discriminate Hin;
  injection Hin as -> ->; cbn;
  try (split; [done | reflexivity]);
  try (split; [reflexivity | eexists; repeat split; reflexivity]).

Lemma present_failures name password force tags perms runas test :
  wp (present name password force tags perms runas test)
    failure_fatal_unless_list_users.
Proof. wp_run; failed_calls. Qed.

Lemma absent_failures name runas test :
  wp (absent name runas test) failure_fatal_unless_list_users.
Proof. wp_run; failed_calls. Qed.

(** C6 (fails as stated).  "bob" exists, [present("bob",
    tags=['administrator'])] is called and [list_users] raises
    [CommandExecutionError('timeout')].  The call is not terminated:
    [_check_tags_changes] logs the error and returns [[]], [present] goes
    on to [list_user_permissions] and returns success. *)
Lemma list_users_failure_is_not_fatal :
  let p := present "bob" None false (TagsList ["administrator"]) [] None false in
  result_of (scripted list_users_down) p 0 = Returned (already_in_desired_state "bob")
  ∧ ¬ every_failure_fatal (trace_of (scripted list_users_down) p 0)
        (result_of (scripted list_users_down) p 0).
Proof.
  split; [reflexivity|]. intros H.
  destruct (H (rabbitmq.list_users None) "timeout") as [Hlast _].
  - vm_compute. apply list_elem_of_further, list_elem_of_here.
  - vm_compute in Hlast. discriminate Hlast.
Qed.

(** C6 (as amended).  In [present] and in [absent], a backend call that
    raises [CommandExecutionError] ends the call at once with
    [result=False] and the comment ['Error: <message>'] -- unless the call
    is [list_users]: that failure is logged by [_check_tags_changes] and
    read as "no tag to change", so the call goes on and sets no tags. *)
Theorem backend_failure_fatal_unless_list_users
    B w name password force tags perms runas test :
  failure_fatal_unless_list_users
    (trace_of B (present name password force tags perms runas test) w)
    (result_of B (present name password force tags perms runas test) w)
  ∧ failure_fatal_unless_list_users
      (trace_of B (absent name runas test) w)
      (result_of B (absent name runas test) w).
Proof.
  split.
  - apply wp_sound, present_failures.
  - apply wp_sound, absent_failures.
Qed.

(** A failing [list_user_permissions] on "bob" is fatal. *)
Lemma backend_failure_fatal_unless_list_users_witness :
  let p := present "bob" None false (TagsList ["administrator"]) [] None false in
  fatal (trace_of (scripted permissions_down) p 0)
        (result_of (scripted permissions_down) p 0)
        (rabbitmq.list_user_permissions "bob" None) "timeout".
Proof.
  intros p.
  apply (proj1 (backend_failure_fatal_unless_list_users
                  (scripted permissions_down) 0 "bob" None false
                  (TagsList ["administrator"]) [] None false)
           (rabbitmq.list_user_permissions "bob" None) "timeout").
  vm_compute. apply list_elem_of_further, list_elem_of_further, list_elem_of_here.
Defined.

(** ** Dry runs *)

(** C7.  With [__opts__['test']] set, [present] and [absent] invoke none
    of [add_user], [change_password], [clear_password], [set_user_tags],
    [set_permissions], [delete_user]: every backend call they make is one
    of [user_exists], [list_users], [list_user_permissions]. *)
Theorem dry_run_only_reads B w name password force tags perms runas :
  reads_only (trace_of B (present name password force tags perms runas true) w)
  ∧ reads_only (trace_of B (absent name runas true) w).
Proof.
  split.
  - apply (wp_sound (present name password force tags perms runas true)
             (λ tr _, reads_only tr)).
    wp_run; unfold reads_only; repeat constructor.
  - apply (wp_sound (absent name runas true) (λ tr _, reads_only tr)).
    wp_run; unfold reads_only; repeat constructor.
Qed.

(** C8.  A dry-run [absent] on an existing user makes the single call
    [user_exists] (so no [delete_user]) and returns [result=None], the
    comment "The user '<name>' will be removed." and
    [changes = {name: {old: name, new: ''}}]. *)
Theorem absent_dry_run_existing B w w1 name runas :
  exec B (rabbitmq.user_exists name runas) w = (inr true, w1) →
  run B (absent name runas true) w
  = (Returned (ret.Make name None ("The user '" +:+ name +:+ "' will be removed.")
                 {[ "name" := ret.Change (PyStr name) (PyStr "") ]}),
     w1, [Ev (rabbitmq.user_exists name runas) None])
  ∧ count rabbitmq.is_delete_user (trace_of B (absent name runas true) w) = 0.
Proof.
  intros H.
  assert (Hrun : run B (absent name runas true) w
    = (Returned (ret.Make name None ("The user '" +:+ name +:+ "' will be removed.")
                   {[ "name" := ret.Change (PyStr name) (PyStr "") ]}),
       w1, [Ev (rabbitmq.user_exists name runas) None])).
  { unfold absent, try_call. cbn [run]. rewrite H. cbn [negb andb].
    rewrite bool_decide_eq_true_2 by apply insert_non_empty. reflexivity. }
  split; [exact Hrun|]. unfold trace_of. rewrite Hrun. reflexivity.
Qed.

(** "bob" exists; the dry run reports the pending removal. *)
Lemma absent_dry_run_existing_witness :
  run (scripted bob_exists) (absent "bob" None true) 0
  = (Returned (ret.Make "bob" None "The user 'bob' will be removed."
                 {[ "name" := ret.Change (PyStr "bob") (PyStr "") ]}),
     1, [Ev (rabbitmq.user_exists "bob" None) None])
  ∧ count rabbitmq.is_delete_user
      (trace_of (scripted bob_exists) (absent "bob" None true) 0) = 0.
Proof. apply (absent_dry_run_existing (scripted bob_exists) 0 1 "bob" None). reflexivity. Defined.

(** ** Forced password change *)

(** Splitting a membership in an explicit trace into its cases, and
    dropping the impossible ones. *)
Ltac in_trace H :=
  cbn [err_of] in H;
  repeat (apply elem_of_cons in H as [H | H]);
  try (apply elem_of_nil in H; destruct H);
  try discriminate H.

Lemma present_user_force_apply name password tags perms runas :
  wp (present_user name password true tags perms runas false true
        (ret.Make name (Some false) "" ∅))
    (λ tr o, one_credential_call_recorded name password runas
               (Ev (rabbitmq.user_exists name runas) None :: tr) o).
Proof.
  destruct password as [pw|]; wp_run; cbn [one_credential_call_recorded].
  all: try (split; reflexivity).
  all: split; [reflexivity|]; split; [reflexivity|]; split;
    [ intros Hin r Hr; in_trace Hin; try discriminate Hr;
      injection Hr as <-; reflexivity
    | intros msg Hin; in_trace Hin; injection Hin as <-; reflexivity ].
Qed.

(** C9 (fails as stated).  "bob" exists, [present("bob", force=True)] is
    called without a password in apply mode and [clear_password] raises
    [CommandExecutionError('locked')]: [clear_password] is the one
    credential call, but the result is a failure with empty [changes],
    without the [password] entry. *)
Lemma force_clear_failure_records_nothing :
  let p := present "bob" None true TagsNone [] None false in
  result_of (scripted password_locked) p 0 = Returned (failed "bob" "locked")
  ∧ ¬ one_credential_call None (trace_of (scripted password_locked) p 0)
        (result_of (scripted password_locked) p 0).
Proof.
  split; [reflexivity|].
  intros (_ & _ & r & Hr & Hpw). vm_compute in Hr. injection Hr as <-.
  vm_compute in Hpw. discriminate Hpw.
Qed.

(** C9 (as amended).  In apply mode, for an existing user and
    [force=True], exactly one credential call is made: [clear_password]
    and no [change_password] when [password] is [None], [change_password]
    and no [clear_password] otherwise.  Once [clear_password] has gone
    through, [changes['password'] = {old: 'Removed password.', new: ''}]
    is in the result that [present] returns; when [clear_password] raises,
    the result is the failure with empty [changes]. *)
Theorem present_force_one_credential_call B w w1 name password tags perms runas :
  exec B (rabbitmq.user_exists name runas) w = (inr true, w1) →
  one_credential_call_recorded name password runas
    (trace_of B (present name password true tags perms runas false) w)
    (result_of B (present name password true tags perms runas false) w).
Proof.
  intros H. unfold present, try_call.
  eapply (wp_answered B (rabbitmq.user_exists name runas) _ w (inr true) w1
            (one_credential_call_recorded name password runas) H).
  apply present_user_force_apply.
Qed.

(** "bob" exists and his password is cleared. *)
Lemma present_force_one_credential_call_witness :
  one_credential_call_recorded "bob" None None
    (trace_of (scripted bob_exists) (present "bob" None true TagsNone [] None false) 0)
    (result_of (scripted bob_exists) (present "bob" None true TagsNone [] None false) 0).
Proof.
  apply (present_force_one_credential_call (scripted bob_exists) 0 1
           "bob" None TagsNone [] None).
  reflexivity.
Defined.

(** ** A forced call is never a no-op *)

Lemma append_inv_head (s a b : string) : s +:+ a = s +:+ b → a = b.
Proof. induction s as [|c s IH]; cbn; [done|]. intros [= H]. auto. Qed.

Lemma comment_not_noop name (c : string) :
  c = "Error: " ∨ c = "Configuration for '" ∨ c = "User '" →
  ∀ rest, c +:+ rest ≠ ret.comment (already_in_desired_state name).
Proof. intros [-> | [-> | ->]] rest; cbn; discriminate. Qed.

Lemma configured_not_noop name :
  "'" +:+ name +:+ "' was configured."
  ≠ ret.comment (already_in_desired_state name).
Proof. cbn. intros [= H]. do 2 apply append_inv_head in H. discriminate H. Qed.

Lemma present_user_force name password tags perms runas test :
  wp (present_user name password true tags perms runas test true
        (ret.Make name (Some false) "" ∅))
    (λ tr o, force_never_noop name
               (Ev (rabbitmq.user_exists name runas) None :: tr) o).
Proof.
  wp_run; intros r Hr; try discriminate Hr; injection Hr as <-.
  all: split;
    [ intros Heq;
      first [ apply (f_equal ret.result) in Heq; discriminate Heq
            | apply (f_equal ret.changes) in Heq; cbn in Heq;
              revert Heq; apply insert_non_empty ]
    | split;
      [ first [ apply configured_not_noop
              | apply (comment_not_noop name "Error: "); auto
              | apply (comment_not_noop name "Configuration for '"); auto ]
      | first [ left; eexists; reflexivity
              | right; do 2 eexists;
                split; [apply list_elem_of_further, list_elem_of_here|];
                split; reflexivity ] ] ].
Qed.

(** C10 (fails as stated).  "bob" exists, [present("bob", password="s3",
    force=True)] runs in apply mode and [change_password] raises
    [CommandExecutionError('locked')]: the call returns before anything is
    recorded, so [changes] is empty. *)
Lemma force_set_failure_leaves_changes_empty :
  let p := present "bob" (Some "s3") true TagsNone [] None false in
  result_of (scripted password_locked) p 0 = Returned (failed "bob" "locked")
  ∧ ¬ force_always_records (result_of (scripted password_locked) p 0).
Proof.
  split; [reflexivity|].
  intros H. destruct (H (failed "bob" "locked")) as [_ Hne]; [reflexivity|].
  apply Hne. reflexivity.
Qed.

(** C10 (as amended).  For an existing user and [force=True], [present]
    never reads the current credential and never returns the "already in
    the desired state" no-op.  The result it returns has a [password]
    entry in [changes] -- recorded in a dry run, and in apply mode once the
    credential call has gone through -- and otherwise is the failure of
    that very call, [clear_password] or [change_password], with empty
    [changes]. *)
Theorem present_force_never_noop B w w1 name password tags perms runas test :
  exec B (rabbitmq.user_exists name runas) w = (inr true, w1) →
  force_never_noop name
    (trace_of B (present name password true tags perms runas test) w)
    (result_of B (present name password true tags perms runas test) w).
Proof.
  intros H. unfold present, try_call.
  eapply (wp_answered B (rabbitmq.user_exists name runas) _ w (inr true) w1
            (force_never_noop name) H).
  apply present_user_force.
Qed.

(** "bob" exists and gets a new password in a dry run: the result is
    "will change", with the [password] entry. *)
Lemma present_force_never_noop_witness :
  let p := present "bob" (Some "s3") true TagsNone [] None true in
  result_of (scripted bob_exists) p 0
  = Returned (ret.Make "bob" None "Configuration for 'bob' will change."
                {[ "password" := password_set ]})
  ∧ force_never_noop "bob" (trace_of (scripted bob_exists) p 0)
      (result_of (scripted bob_exists) p 0).
Proof.
  split; [reflexivity|].
  apply (present_force_never_noop (scripted bob_exists) 0 1
           "bob" (Some "s3") TagsNone [] None true).
  reflexivity.
Defined.

(** * Further properties of [rabbitmq_user] *)

(** ** [_check_perms_changes] called without [existing] *)

Lemma check_vhost_perms_bound existing_perms items b :
  ∃ b', check_vhost_perms (Some existing_perms) items b = inr b'
        ∧ (b' = true ↔ b = true
             ∨ ∃ vhost perms, (vhost, perms) ∈ items
                              ∧ existing_perms !! vhost ≠ Some perms).
Proof.
  revert b. induction items as [|[vhost perms] items IH]; intros b; cbn.
  - exists b. split; [done|]. split; [auto|].
    intros [H | (? & ? & H & _)]; [done|]. by apply elem_of_nil in H.
  - destruct (existing_perms !! vhost) as [cur|] eqn:Hcur.
    + destruct (IH (if decide (perms ≠ cur) then true else b)) as (b' & -> & Hb').
      exists b'. split; [done|]. rewrite Hb'. split.
      * intros [H | (v & p & Hin & Hne)].
        -- destruct (decide (perms ≠ cur)) as [Hd|Hd]; [|by left].
           right. exists vhost, perms. split; [left|]. congruence.
        -- right. exists v, p. split; [by right|done].
      * intros [H | (v & p & Hin & Hne)].
        -- left. by destruct (decide (perms ≠ cur)).
        -- apply elem_of_cons in Hin as [[= -> ->] | Hin].
           ++ left. destruct (decide (perms ≠ cur)) as [Hd|Hd]; [done|].
              exfalso. apply Hne. rewrite Hcur. f_equal. by destruct (decide (perms = cur)).
           ++ right. eauto.
    + destruct (IH true) as (b' & -> & Hb').
      exists b'. split; [done|]. rewrite Hb'. split; [|auto].
      intros _. right. exists vhost, perms. split; [left|]. by rewrite Hcur.
Qed.

Lemma check_newperms_bound existing_perms newperms b :
  ∃ b', check_newperms (Some existing_perms) newperms b = inr b'
        ∧ (b' = true ↔ b = true ∨ perms_differ existing_perms newperms).
Proof.
  revert b. induction newperms as [|vhost_perms rest IH]; intros b; cbn.
  - exists b. split; [done|]. split; [auto|].
    intros [H | (? & ? & ? & H & _)]; [done|]. by apply elem_of_nil in H.
  - destruct (check_vhost_perms_bound existing_perms vhost_perms b) as (b1 & -> & Hb1).
    destruct (IH b1) as (b' & -> & Hb').
    exists b'. split; [done|]. rewrite Hb', Hb1. unfold perms_differ. split.
    + intros [[H | (v & p & Hin & Hne)] | (vp & v & p & Hvp & Hin & Hne)].
      * by left.
      * right. exists vhost_perms, v, p. split; [left|done].
      * right. exists vp, v, p. split; [by right|done].
    + intros [H | (vp & v & p & Hvp & Hin & Hne)]; [by left; left|].
      apply elem_of_cons in Hvp as [-> | Hvp].
      * left. right. eauto.
      * right. exists vp, v, p. done.
Qed.

(** X1.  Called without [existing], [_check_perms_changes] reads the
    user's permissions with one [list_user_permissions] call and answers
    [True] exactly when some desired vhost is missing from them or listed
    with other permissions. *)
Theorem _check_perms_changes_reads_and_compares B w w1 name newperms runas
    (existing_perms : gmap string (list string)) :
  newperms ≠ [] →
  exec B (rabbitmq.list_user_permissions name runas) w = (inr existing_perms, w1) →
  ∃ b, run B (_check_perms_changes name newperms runas None) w
       = (Returned b, w1, [Ev (rabbitmq.list_user_permissions name runas) None])
       ∧ (b = true ↔ perms_differ existing_perms newperms).
Proof.
  intros Hne Hexec. unfold _check_perms_changes, try_call.
  destruct newperms as [|vhost_perms rest]; [done|]. cbn [truthy_list negb run].
  rewrite Hexec.
  destruct (check_newperms_bound existing_perms (vhost_perms :: rest) false)
    as (b & Hb & Hiff).
  exists b. rewrite Hb. split; [reflexivity|].
  rewrite Hiff. split; [intros [H|H]; [done|exact H] | auto].
Qed.

Lemma _check_perms_changes_reads_and_compares_witness :
  ∃ b, run (scripted bob_exists)
         (_check_perms_changes "bob" [[("/", [".*"; ".*"; ".*"])]] None None) 0
       = (Returned b, 1, [Ev (rabbitmq.list_user_permissions "bob" None) None])
       ∧ (b = true ↔ perms_differ ∅ [[("/", [".*"; ".*"; ".*"])]]).
Proof.
  apply (_check_perms_changes_reads_and_compares (scripted bob_exists) 0 1
           "bob" [[("/", [".*"; ".*"; ".*"])]] None ∅); [done | reflexivity].
Defined.

(** X2.  When that [list_user_permissions] call raises
    [CommandExecutionError], [_check_perms_changes] swallows the error and
    answers [False], whatever the desired permissions are. *)
Theorem _check_perms_changes_read_failure B w w1 name newperms runas msg :
  exec B (rabbitmq.list_user_permissions name runas) w = (inl msg, w1) →
  result_of B (_check_perms_changes name newperms runas None) w = Returned false.
Proof.
  intros Hexec. unfold result_of, _check_perms_changes, try_call.
  destruct newperms as [|vhost_perms rest]; [reflexivity|].
  cbn [truthy_list negb run]. rewrite Hexec. reflexivity.
Qed.

Lemma _check_perms_changes_read_failure_witness :
  result_of (scripted permissions_down)
    (_check_perms_changes "bob" [[("/", [".*"; ".*"; ".*"])]] None None) 0
  = Returned false.
Proof.
  apply (_check_perms_changes_read_failure (scripted permissions_down) 0 1
           "bob" [[("/", [".*"; ".*"; ".*"])]] None "timeout").
  reflexivity.
Defined.

(** ** [_check_tags_changes] *)

(** X3.  For a non-empty [tags] argument (a list, or a string, which
    counts for its whitespace-separated pieces) and a listed user,
    [_check_tags_changes] makes one [list_users] call and returns the set
    of the user's tags that are not desired; this value is truthy, i.e.
    [present] goes on to set tags, exactly when the user has a tag that is
    not among the desired ones. *)
Theorem _check_tags_changes_need B w w1 name tags runas
    (all_users : gmap string (gset string)) (current : gset string) :
  truthy_tags tags = true →
  exec B (rabbitmq.list_users runas) w = (inr all_users, w1) →
  all_users !! name = Some current →
  run B (_check_tags_changes name tags runas) w
  = (Returned (PySet (current ∖ desired_tags tags)), w1,
     [Ev (rabbitmq.list_users runas) None])
  ∧ (truthy (PySet (current ∖ desired_tags tags)) = true
     ↔ ∃ t, t ∈ current ∧ t ∉ desired_tags tags).
Proof.
  intros Htags Hexec Hname. split.
  - unfold _check_tags_changes, try_call. rewrite Htags. cbn [run].
    rewrite Hexec, Hname. destruct tags; reflexivity.
  - cbn [truthy]. rewrite bool_decide_eq_true. split.
    + intros Hne. apply set_choose_L in Hne as [t Ht]. exists t. set_solver.
    + intros (t & Hin & Hnot). set_solver.
Qed.

Lemma _check_tags_changes_need_witness :
  run (scripted bob_admin_monitoring)
    (_check_tags_changes "bob" (TagsStr "monitoring  user") None) 0
  = (Returned (PySet ({[ "administrator"; "monitoring" ]}
                      ∖ desired_tags (TagsStr "monitoring  user"))), 1,
     [Ev (rabbitmq.list_users None) None])
  ∧ (truthy (PySet ({[ "administrator"; "monitoring" ]}
                    ∖ desired_tags (TagsStr "monitoring  user"))) = true
     ↔ ∃ t, t ∈ ({[ "administrator"; "monitoring" ]} : gset string)
            ∧ t ∉ desired_tags (TagsStr "monitoring  user")).
Proof.
  apply (_check_tags_changes_need (scripted bob_admin_monitoring) 0 1 "bob"
           (TagsStr "monitoring  user") None
           {[ "bob" := {[ "administrator"; "monitoring" ]} ]}
           {[ "administrator"; "monitoring" ]});
    reflexivity.
Defined.

(** X4.  A dry run of [present] for a user who does not exist yet raises
    [KeyError] as soon as tags are given: the user is recorded as to be
    created, then [_check_tags_changes] indexes the answer of [list_users]
    with the name, which is not listed. *)
Theorem present_dry_run_new_user_with_tags_raises B w w1 w2
    name password force tags perms runas (all_users : gmap string (gset string)) :
  exec B (rabbitmq.user_exists name runas) w = (inr false, w1) →
  truthy_tags tags = true →
  exec B (rabbitmq.list_users runas) w1 = (inr all_users, w2) →
  all_users !! name = None →
  run B (present name password force tags perms runas true) w
  = (Raised KeyError, w2,
     [Ev (rabbitmq.user_exists name runas) None;
      Ev (rabbitmq.list_users runas) None]).
Proof.
  intros Hexists Htags Husers Hname.
  unfold present, present_user, present_tags, _check_tags_changes, try_call.
  cbn [run]. rewrite Hexists. cbn [andb negb bind]. rewrite Htags.
  cbn [bind run]. rewrite Husers. cbn [bind]. rewrite Hname. reflexivity.
Qed.

Lemma present_dry_run_new_user_with_tags_raises_witness :
  run (scripted no_such_user)
    (present "bob" (Some "p") false (TagsList ["administrator"]) [] None true) 0
  = (Raised KeyError, 2,
     [Ev (rabbitmq.user_exists "bob" None) None;
      Ev (rabbitmq.list_users None) None]).
Proof.
  apply (present_dry_run_new_user_with_tags_raises (scripted no_such_user) 0 1 2
           "bob" (Some "p") false (TagsList ["administrator"]) [] None ∅);
    reflexivity.
Defined.

(** ** What [present] and [absent] call, and in which order *)

(** X5.  Whatever the arguments and whatever the backend answers,
    [present] never calls [add_user], [set_permissions] or [delete_user]:
    the creation path stops at line 123 and the permission loop is never
    entered. *)
Theorem present_never_creates_grants_or_deletes
    B w name password force tags perms runas test :
  let tr := trace_of B (present name password force tags perms runas test) w in
  count rabbitmq.is_add_user tr = 0
  ∧ count rabbitmq.is_set_permissions tr = 0
  ∧ count rabbitmq.is_delete_user tr = 0.
Proof.
  apply (wp_sound (present name password force tags perms runas test)
           (λ tr _, count rabbitmq.is_add_user tr = 0
                    ∧ count rabbitmq.is_set_permissions tr = 0
                    ∧ count rabbitmq.is_delete_user tr = 0)).
  wp_run; repeat split.
Qed.

Ltac no_retry :=
  split; [do 2 eexists; reflexivity | apply (bool_decide_unpack _); vm_compute; exact I].

(** X6.  [present] and [absent] first ask [user_exists] for the given name
    and never call the same backend function twice: nothing is retried.
    [present] makes at most five calls and [absent] at most two. *)
Theorem present_absent_no_retry B w name password force tags perms runas test :
  let tr := trace_of B (present name password force tags perms runas test) w in
  let tr' := trace_of B (absent name runas test) w in
  (starts_with_user_exists_no_retry name runas tr ∧ (length tr ≤ 5)%nat)
  ∧ (starts_with_user_exists_no_retry name runas tr' ∧ (length tr' ≤ 2)%nat).
Proof.
  split.
  - apply (wp_sound (present name password force tags perms runas test)
             (λ tr _, starts_with_user_exists_no_retry name runas tr ∧ (length tr ≤ 5)%nat)).
    wp_run; (split; [no_retry | cbn; lia]).
  - apply (wp_sound (absent name runas test)
             (λ tr _, starts_with_user_exists_no_retry name runas tr ∧ (length tr ≤ 2)%nat)).
    wp_run; (split; [no_retry | cbn; lia]).
Qed.

(** X7.  [present] calls [set_user_tags] only in apply mode, only for a
    non-empty [tags] argument, only after [list_users] has answered, and
    always with the name and the tags exactly as they were passed. *)
Theorem present_sets_tags_as_given B w name password force tags perms runas test :
  tags_set_as_given name tags runas test
    (trace_of B (present name password force tags perms runas test) w).
Proof.
  apply (wp_sound (present name password force tags perms runas test)
           (λ tr _, tags_set_as_given name tags runas test tr)).
  wp_run; intros e Hin Hset; in_trace Hin; subst e; try discriminate Hset.
  all: destruct test; try (cbn [negb] in *; congruence).
  all: repeat split; try reflexivity; try assumption;
    cbn [err_of]; repeat first [apply list_elem_of_here | apply list_elem_of_further].
Qed.

(** ** The results of [present] *)

(** A leaf of the symbolic execution that took the branch "changes are
    not empty" although nothing was recorded. *)
Ltac no_changes :=
  try match goal with
      | H : _ ≠ ∅ |- _ => exfalso; apply H; reflexivity
      end.

Ltac returned r :=
  let Hr := fresh "Hr" in
  no_changes; intros r Hr; try discriminate Hr; injection Hr as <-.

(** X8.  Every result that [present] returns carries the name it was
    called with, has no [perms] entry in [changes], never has both a
    [user] and a [password] entry, has [result=None] only in a dry run
    with recorded changes and the "will change" comment, and in a dry run
    has [result=True] only with empty [changes]. *)
Theorem present_result_well_formed B w name password force tags perms runas test :
  ∀ r, result_of B (present name password force tags perms runas test) w = Returned r →
       present_result_shape name test r.
Proof.
  apply (wp_sound (present name password force tags perms runas test)
           (λ _ o, ∀ r, o = Returned r → present_result_shape name test r)).
  wp_run; returned r; unfold present_result_shape; cbn.
  all: split; [reflexivity|]; split; [reflexivity|]; split;
    [ intros [[? Hu] [? Hp]]; vm_compute in Hu; vm_compute in Hp; congruence |].
  all: split;
    [ intros Hres; try discriminate Hres; repeat split; try reflexivity;
      try (destruct test; cbn [negb] in *; congruence);
      apply insert_non_empty
    | intros Htest Hres; try discriminate Hres; try reflexivity;
      try (cbn [negb] in *; congruence) ].
Qed.

(** Picking an event of an explicit trace, with backtracking. *)
Ltac some_event :=
  cbn [err_of];
  (apply list_elem_of_here) + (apply list_elem_of_further; some_event).

(** X9.  In apply mode, a result returned by [present] never has a [user]
    entry, and its [password] and [tags] entries are there only if the
    call that clears or changes the password, respectively
    [set_user_tags], was made and went through. *)
Theorem present_apply_changes_backed B w name password force tags perms runas :
  ∀ r, result_of B (present name password force tags perms runas false) w = Returned r →
       changes_backed_by_calls
         (trace_of B (present name password force tags perms runas false) w) r.
Proof.
  apply (wp_sound (present name password force tags perms runas false)
           (λ tr o, ∀ r, o = Returned r → changes_backed_by_calls tr r)).
  wp_run; returned r; unfold changes_backed_by_calls; cbn.
  all: split; [reflexivity|]; split;
    intros [? Hk]; vm_compute in Hk; try discriminate Hk;
    (eexists; split; [some_event | reflexivity]).
Qed.

Lemma present_result_well_formed_witness :
  present_result_shape "bob" true
    (ret.Make "bob" None "Configuration for 'bob' will change."
       {[ "password" := password_set ]}).
Proof.
  apply (present_result_well_formed (scripted bob_exists) 0
           "bob" (Some "s3") true TagsNone [] None true).
  reflexivity.
Defined.

Lemma present_apply_changes_backed_witness :
  changes_backed_by_calls
    (trace_of (scripted bob_admin_monitoring)
       (present "bob" None true (TagsList ["monitoring"]) [] None false) 0)
    (ret.Make "bob" (Some true) "'bob' was configured."
       (<[ "tags" := ret.Change (PyList ["monitoring"]) (PySet {[ "administrator" ]}) ]>
          {[ "password" := password_cleared ]})).
Proof.
  apply (present_apply_changes_backed (scripted bob_admin_monitoring) 0
           "bob" None true (TagsList ["monitoring"]) [] None).
  vm_compute. reflexivity.
Defined.

(** ** Paths through [present] *)

(** The last step of a path: the verdict of lines 191-202. *)
Ltac verdict :=
  cbn; try reflexivity;
  repeat match goal with
         | |- context [decide (?m = ∅)] =>
             let He := fresh "He" in
             destruct (decide (m = ∅)) as [He | _];
             [exfalso; revert He; apply insert_non_empty |]
         end;
  reflexivity.

(** X10.  When [user_exists] raises [CommandExecutionError], [present]
    and [absent] make no further call and return [result=False], the
    comment ['Error: <message>'] and empty [changes]. *)
Theorem user_exists_failure B w w1 name password force tags perms runas test msg :
  exec B (rabbitmq.user_exists name runas) w = (inl msg, w1) →
  run B (present name password force tags perms runas test) w
  = (Returned (failed name msg), w1, [Ev (rabbitmq.user_exists name runas) (Some msg)])
  ∧ run B (absent name runas test) w
    = (Returned (failed name msg), w1, [Ev (rabbitmq.user_exists name runas) (Some msg)]).
Proof.
  intros H. unfold present, absent, try_call. cbn [run]. rewrite H. split; reflexivity.
Qed.

Lemma user_exists_failure_witness :
  let down := {| user_present := true; users := ∅; permissions := ∅;
                 fails := λ _, Some "timeout" |} in
  run (scripted down) (present "bob" None false TagsNone [] None false) 0
  = (Returned (failed "bob" "timeout"), 1,
     [Ev (rabbitmq.user_exists "bob" None) (Some "timeout")])
  ∧ run (scripted down) (absent "bob" None false) 0
    = (Returned (failed "bob" "timeout"), 1,
       [Ev (rabbitmq.user_exists "bob" None) (Some "timeout")]).
Proof.
  intros down.
  apply (user_exists_failure (scripted down) 0 1 "bob" None false TagsNone [] None
           false "timeout").
  reflexivity.
Defined.

(** X11.  A dry run of [present] for a user who does not exist, with no
    tags and no permissions asked for, reads [user_exists] and
    [list_user_permissions] and reports the creation as pending:
    [result=None], "Configuration for '<name>' will change." and
    [changes = {user: {old: '', new: name}}]. *)
Theorem present_dry_run_new_user B w w1 w2 name password force tags runas
    (existing_perms : gmap string (list string)) :
  exec B (rabbitmq.user_exists name runas) w = (inr false, w1) →
  truthy_tags tags = false →
  exec B (rabbitmq.list_user_permissions name runas) w1 = (inr existing_perms, w2) →
  run B (present name password force tags [] runas true) w
  = (Returned (ret.Make name None ("Configuration for '" +:+ name +:+ "' will change.")
                 {[ "user" := ret.Change (PyStr "") (PyStr name) ]}),
     w2,
     [Ev (rabbitmq.user_exists name runas) None;
      Ev (rabbitmq.list_user_permissions name runas) None]).
Proof.
  intros Hexists Htags Hperms.
  unfold present, present_user, present_tags, present_perms, _check_tags_changes,
    try_call.
  cbn [run]. rewrite Hexists. cbn [andb negb]. rewrite Htags. cbn.
  rewrite Hperms. verdict.
Qed.

Lemma present_dry_run_new_user_witness :
  run (scripted no_such_user) (present "bob" (Some "p") false (TagsList []) [] None true) 0
  = (Returned (ret.Make "bob" None "Configuration for 'bob' will change."
                 {[ "user" := ret.Change (PyStr "") (PyStr "bob") ]}),
     2,
     [Ev (rabbitmq.user_exists "bob" None) None;
      Ev (rabbitmq.list_user_permissions "bob" None) None]).
Proof.
  apply (present_dry_run_new_user (scripted no_such_user) 0 1 2
           "bob" (Some "p") false (TagsList []) None ∅); reflexivity.
Defined.

(** X12.  Apply mode, existing user, no [force], no permissions: if the
    user has a tag that is not desired, [present] calls [set_user_tags]
    with the desired tags and, when that call and the permission read go
    through, returns [result=True], "'<name>' was configured." and
    [changes = {tags: {old: <the desired tags>, new: <the user's tags that
    are not desired>}}]. *)
Theorem present_replaces_tags B w w1 w2 w3 w4 name password tags runas
    (all_users : gmap string (gset string)) (current : gset string)
    (existing_perms : gmap string (list string)) :
  exec B (rabbitmq.user_exists name runas) w = (inr true, w1) →
  truthy_tags tags = true →
  exec B (rabbitmq.list_users runas) w1 = (inr all_users, w2) →
  all_users !! name = Some current →
  current ∖ desired_tags tags ≠ ∅ →
  exec B (rabbitmq.set_user_tags name tags runas) w2 = (inr (), w3) →
  exec B (rabbitmq.list_user_permissions name runas) w3 = (inr existing_perms, w4) →
  run B (present name password false tags [] runas false) w
  = (Returned (ret.Make name (Some true) ("'" +:+ name +:+ "' was configured.")
                 {[ "tags" := ret.Change (tags_val tags)
                                (PySet (current ∖ desired_tags tags)) ]}),
     w4,
     [Ev (rabbitmq.user_exists name runas) None;
      Ev (rabbitmq.list_users runas) None;
      Ev (rabbitmq.set_user_tags name tags runas) None;
      Ev (rabbitmq.list_user_permissions name runas) None]).
Proof.
  intros Hexists Htags Husers Hname Hdelta Hset Hperms.
  unfold present, present_user, present_tags, present_perms, _check_tags_changes,
    try_call.
  cbn [run]. rewrite Hexists. cbn [andb negb orb]. rewrite Htags. cbn.
  rewrite Husers. cbn. rewrite Hname. cbn.
  fold (desired_tags tags).
  rewrite (bool_decide_eq_true_2 _ Hdelta). cbn.
  rewrite Hset. cbn. rewrite Hperms. verdict.
Qed.

Lemma present_replaces_tags_witness :
  run (scripted bob_admin_monitoring)
    (present "bob" None false (TagsList ["monitoring"]) [] None false) 0
  = (Returned (ret.Make "bob" (Some true) "'bob' was configured."
                 {[ "tags" := ret.Change (PyList ["monitoring"])
                                (PySet ({[ "administrator"; "monitoring" ]}
                                        ∖ desired_tags (TagsList ["monitoring"]))) ]}),
     4,
     [Ev (rabbitmq.user_exists "bob" None) None;
      Ev (rabbitmq.list_users None) None;
      Ev (rabbitmq.set_user_tags "bob" (TagsList ["monitoring"]) None) None;
      Ev (rabbitmq.list_user_permissions "bob" None) None]).
Proof.
  apply (present_replaces_tags (scripted bob_admin_monitoring) 0 1 2 3 4
           "bob" None (TagsList ["monitoring"]) None
           {[ "bob" := {[ "administrator"; "monitoring" ]} ]}
           {[ "administrator"; "monitoring" ]} ∅);
    try reflexivity.
  apply (bool_decide_unpack _). vm_compute. exact I.
Defined.

(** X13.  Existing user, no [force], no permissions: if every tag the
    user has is among the desired ones, [present] sets no tags, even when
    desired tags are missing, and reports ['<name>' is already in the
    desired state] with [result=True] and empty [changes], in apply mode
    and in a dry run alike. *)
Theorem present_keeps_tags B w w1 w2 w3 name password tags runas test
    (all_users : gmap string (gset string)) (current : gset string)
    (existing_perms : gmap string (list string)) :
  exec B (rabbitmq.user_exists name runas) w = (inr true, w1) →
  truthy_tags tags = true →
  exec B (rabbitmq.list_users runas) w1 = (inr all_users, w2) →
  all_users !! name = Some current →
  current ⊆ desired_tags tags →
  exec B (rabbitmq.list_user_permissions name runas) w2 = (inr existing_perms, w3) →
  run B (present name password false tags [] runas test) w
  = (Returned (already_in_desired_state name), w3,
     [Ev (rabbitmq.user_exists name runas) None;
      Ev (rabbitmq.list_users runas) None;
      Ev (rabbitmq.list_user_permissions name runas) None]).
Proof.
  intros Hexists Htags Husers Hname Hsub Hperms.
  apply subseteq_empty_difference_L in Hsub as Hdelta.
  unfold present, present_user, present_tags, present_perms, _check_tags_changes,
    try_call.
  cbn [run]. rewrite Hexists. cbn [andb negb orb]. rewrite Htags. cbn.
  rewrite Husers. cbn. rewrite Hname. cbn.
  fold (desired_tags tags). rewrite Hdelta.
  rewrite bool_decide_eq_false_2 by (intros Hne; by apply Hne). cbn.
  rewrite Hperms. verdict.
Qed.

Lemma present_keeps_tags_witness :
  run (scripted bob_monitoring)
    (present "bob" None false (TagsList ["monitoring"; "user"]) [] None false) 0
  = (Returned (already_in_desired_state "bob"), 3,
     [Ev (rabbitmq.user_exists "bob" None) None;
      Ev (rabbitmq.list_users None) None;
      Ev (rabbitmq.list_user_permissions "bob" None) None]).
Proof.
  apply (present_keeps_tags (scripted bob_monitoring) 0 1 2 3
           "bob" None (TagsList ["monitoring"; "user"]) None false
           {[ "bob" := {[ "monitoring" ]} ]} {[ "monitoring" ]} ∅);
    try reflexivity.
  apply (bool_decide_unpack _). vm_compute. exact I.
Defined.



(** ** [absent] *)

(** X15.  In apply mode, [absent] on an existing user calls [delete_user]
    once.  If the call goes through, the result is [result=True], "The
    user '<name>' was removed." and [changes = {name: {old: name, new:
    ''}}]; if it raises [CommandExecutionError], the result is
    [result=False], ['Error: <message>'] and empty [changes]. *)
Theorem absent_apply_existing B w w1 w2 name runas answer :
  exec B (rabbitmq.user_exists name runas) w = (inr true, w1) →
  exec B (rabbitmq.delete_user name runas) w1 = (answer, w2) →
  run B (absent name runas false) w
  = (Returned
       match answer with
       | inl msg => failed name msg
       | inr _ =>
           ret.Make name (Some true) ("The user '" +:+ name +:+ "' was removed.")
             {[ "name" := ret.Change (PyStr name) (PyStr "") ]}
       end,
     w2,
     [Ev (rabbitmq.user_exists name runas) None;
      Ev (rabbitmq.delete_user name runas) (err_of answer)]).
Proof.
  intros Hexists Hdelete. unfold absent, try_call.
  cbn [run]. rewrite Hexists. cbn [negb run]. rewrite Hdelete.
  destruct answer; reflexivity.
Qed.

Lemma absent_apply_existing_witness :
  run (scripted bob_exists) (absent "bob" None false) 0
  = (Returned (ret.Make "bob" (Some true) "The user 'bob' was removed."
                 {[ "name" := ret.Change (PyStr "bob") (PyStr "") ]}),
     2,
     [Ev (rabbitmq.user_exists "bob" None) None;
      Ev (rabbitmq.delete_user "bob" None) None]).
Proof.
  apply (absent_apply_existing (scripted bob_exists) 0 1 2 "bob" None (inr ()));
    reflexivity.
Defined.

(** X16.  [absent] on a user who does not exist is a no-op in apply mode
    and in a dry run alike: one [user_exists] call, [result=True], "The
    user '<name>' is not present." and empty [changes]. *)
Theorem absent_missing_user B w w1 name runas test :
  exec B (rabbitmq.user_exists name runas) w = (inr false, w1) →
  run B (absent name runas test) w
  = (Returned (ret.Make name (Some true)
                 ("The user '" +:+ name +:+ "' is not present.") ∅),
     w1, [Ev (rabbitmq.user_exists name runas) None]).
Proof.
  intros Hexists. unfold absent, try_call. cbn [run]. rewrite Hexists. reflexivity.
Qed.

Lemma absent_missing_user_witness :
  run (scripted no_such_user) (absent "bob" None true) 0
  = (Returned (ret.Make "bob" (Some true) "The user 'bob' is not present." ∅),
     1, [Ev (rabbitmq.user_exists "bob" None) None]).
Proof.
  apply (absent_missing_user (scripted no_such_user) 0 1 "bob" None true).
  reflexivity.
Defined.

(** X17.  Whatever the backend answers, [absent] raises no exception: it
    returns a result that carries the name, whose [changes] are empty or
    the removal of the name, and whose [result] is [None] only in a dry
    run; and it calls [user_exists], then at most [delete_user], the
    latter in apply mode only. *)
Theorem absent_always_returns B w name runas test :
  absent_trace name runas test (trace_of B (absent name runas test) w)
  ∧ ∃ r, result_of B (absent name runas test) w = Returned r
         ∧ ret.name r = name
         ∧ absent_changes name (ret.changes r)
         ∧ (ret.result r = None → test = true).
Proof.
  apply (wp_sound (absent name runas test)
           (λ tr o, absent_trace name runas test tr
                    ∧ ∃ r, o = Returned r ∧ ret.name r = name
                           ∧ absent_changes name (ret.changes r)
                           ∧ (ret.result r = None → test = true))).
  wp_run.
  all: split;
    [ first [ left; eexists; reflexivity
            | right; split;
              [ destruct test; cbn [negb] in *; congruence
              | eexists; reflexivity ] ]
    | eexists; split; [reflexivity|]; split; [reflexivity|]; split;
      [ first [ left; reflexivity | right; reflexivity ]
      | cbn; intros Hres; try discriminate Hres;
        destruct test; cbn [negb andb] in *; congruence ] ].
Qed.

(** The [set_user_tags] call made for "bob" in apply mode. *)
Lemma present_sets_tags_as_given_witness :
  let p := present "bob" None false (TagsList ["monitoring"]) [] None false in
  let e := Ev (rabbitmq.set_user_tags "bob" (TagsList ["monitoring"]) None) None in
  false = false
  ∧ truthy_tags (TagsList ["monitoring"]) = true
  ∧ ev_call e = rabbitmq.set_user_tags "bob" (TagsList ["monitoring"]) None
  ∧ Ev (rabbitmq.list_users None) None
    ∈ trace_of (scripted bob_admin_monitoring) p 0.
Proof.
  intros p e.
  apply (present_sets_tags_as_given (scripted bob_admin_monitoring) 0
           "bob" None false (TagsList ["monitoring"]) [] None false e).
  - vm_compute. some_event.
  - reflexivity.
Defined.

(** * Properties of [znc] *)

(** ** Strings *)

Lemma str_app_cons a s t : String a s +:+ t = String a (s +:+ t).
Proof. reflexivity. Qed.

Lemma str_app_nil_r s : s +:+ "" = s.
Proof. induction s as [|a s IH]; [reflexivity|]. by rewrite str_app_cons, IH. Qed.

Lemma str_app_assoc s t u : (s +:+ t) +:+ u = s +:+ (t +:+ u).
Proof. induction s as [|a s IH]; [reflexivity|]. by rewrite !str_app_cons, IH. Qed.

Lemma str_app_snoc_ne s a : s +:+ String a "" ≠ "".
Proof. destruct s; discriminate. Qed.

Lemma prefix_starts_with sep s : String.prefix sep s = true ↔ starts_with sep s.
Proof.
  revert s. induction sep as [|a sep IH]; intros s.
  - split; [intros _; by exists s | intros _; by destruct s].
  - destruct s as [|b s]; cbn.
    + split; [done | intros [t Ht]; discriminate Ht].
    + destruct (ascii_dec a b) as [-> | Hne].
      * rewrite IH. split; intros [t Ht]; exists t.
        -- by rewrite Ht.
        -- by injection Ht.
      * split; [done | intros [t Ht]; injection Ht; congruence].
Qed.

(** ** [_makepass] *)

Section makepass_facts.
Variable digest : string → string → string.
Variable R : random.source.
Hypothesis R_in_range : random.in_range R.

Lemma choice_in_range {A} (seq : list A) g :
  seq ≠ [] →
  ∃ a g', random.choice R seq g = (inr a, g') ∧ a ∈ seq.
Proof.
  intros Hne. unfold random.choice.
  pose proof (R_in_range (length seq) g) as Hlt.
  destruct (random.randbelow R (length seq) g) as [i g'] eqn:Hdraw. cbn in Hlt.
  destruct (lookup_lt_is_Some_2 seq i) as [a Ha].
  { apply Hlt. destruct seq; [done | cbn; lia]. }
  exists a, g'. rewrite Ha. split; [done|]. by eapply list_elem_of_lookup_2.
Qed.

Lemma join_choices_spec n g :
  ∃ s g', znc.join_choices R n g = (inr s, g')
          ∧ String.length s = n
          ∧ ∀ a, a ∈ list_ascii_of_string s → a ∈ list_ascii_of_string znc.c.
Proof.
  revert g. induction n as [|n IH]; intros g; cbn [znc.join_choices].
  - exists "", g. split; [done|]. split; [done|]. intros a Ha. by apply elem_of_nil in Ha.
  - destruct (choice_in_range (list_ascii_of_string znc.c) g) as (a & g1 & -> & Ha);
      [discriminate|].
    destruct (IH g1) as (s & g2 & -> & Hlen & Hs).
    exists (String a s), g2. split; [done|]. split; [cbn; by rewrite Hlen|].
    intros b Hb. cbn in Hb. apply elem_of_cons in Hb as [-> | Hb]; auto.
Qed.
End makepass_facts.

(** X18.  With a supported hasher ([sha256] or [md5]), [_makepass] returns
    a dict whose [Salt] is 20 characters long, every one of them taken
    from the alphabet [c] of lines 38-40. *)
Theorem makepass_salt digest R password hasher g :
  random.in_range R →
  hasher = "sha256" ∨ hasher = "md5" →
  ∃ r salt g',
    znc._makepass digest R password hasher g = (inr (znc.Password r), g')
    ∧ r !! "Salt" = Some salt
    ∧ String.length salt = 20
    ∧ ∀ a, a ∈ list_ascii_of_string salt → a ∈ list_ascii_of_string znc.c.
Proof.
  intros HR Hhasher.
  destruct (join_choices_spec R HR 20 g) as (salt & g' & Hsalt & Hlen & Hchars).
  unfold znc._makepass. rewrite Hsalt.
  destruct Hhasher as [-> | ->]; cbn; eauto 10.
Qed.

Lemma round_robin_in_range : random.in_range round_robin.
Proof. intros n g Hn. cbn. apply Nat.mod_upper_bound. lia. Qed.

Lemma makepass_salt_witness :
  ∃ r salt g',
    znc._makepass tagging_digest round_robin "secret" "md5" 70
    = (inr (znc.Password r), g')
    ∧ r !! "Salt" = Some salt
    ∧ String.length salt = 20
    ∧ ∀ a, a ∈ list_ascii_of_string salt → a ∈ list_ascii_of_string znc.c.
Proof.
  apply (makepass_salt tagging_digest round_robin "secret" "md5" 70
           round_robin_in_range).
  right. reflexivity.
Defined.

(** X19.  With a supported hasher, the dict returned by [_makepass] has
    exactly the keys [Method], [Salt] and [Hash]: [Method] is the name of
    the hasher and [Hash] is the digest, by that hasher, of the password
    followed by the salt. *)
Theorem makepass_hash digest R password hasher g :
  random.in_range R →
  hasher = "sha256" ∨ hasher = "md5" →
  ∃ salt g',
    znc._makepass digest R password hasher g
    = (inr (znc.Password
              (<["Hash" := digest hasher (password +:+ salt)]>
                 (<["Salt" := salt]> (<["Method" := hasher]> ∅)))), g').
Proof.
  intros HR Hhasher.
  destruct (join_choices_spec R HR 20 g) as (salt & g' & Hsalt & _).
  exists salt, g'. unfold znc._makepass. rewrite Hsalt.
  destruct Hhasher as [-> | ->]; reflexivity.
Qed.

Lemma makepass_hash_witness :
  ∃ salt g',
    znc._makepass tagging_digest round_robin "secret" "sha256" 0
    = (inr (znc.Password
              (<["Hash" := tagging_digest "sha256" ("secret" +:+ salt)]>
                 (<["Salt" := salt]> (<["Method" := "sha256"]> ∅)))), g').
Proof.
  apply (makepass_hash tagging_digest round_robin "secret" "sha256" 0
           round_robin_in_range).
  left. reflexivity.
Defined.

(** X20.  [_makepass] answers [NotImplemented] exactly when the hasher is
    neither [sha256] nor [md5]; it then raises nothing and draws no random
    character. *)
Theorem makepass_NotImplemented digest R password hasher g :
  random.in_range R →
  ((znc._makepass digest R password hasher g).1 = inr znc.NotImplemented
   ↔ hasher ≠ "sha256" ∧ hasher ≠ "md5")
  ∧ (hasher ≠ "sha256" → hasher ≠ "md5" →
     znc._makepass digest R password hasher g = (inr znc.NotImplemented, g)).
Proof.
  intros HR. split.
  - split.
    + intros Hres.
      destruct (join_choices_spec R HR 20 g) as (salt & g' & Hsalt & _).
      unfold znc._makepass in Hres. rewrite Hsalt in Hres.
      split; intros ->; discriminate Hres.
    + intros [H1 H2]. unfold znc._makepass.
      destruct (decide (hasher = "sha256")); [done|].
      destruct (decide (hasher = "md5")); done.
  - intros H1 H2. unfold znc._makepass.
    destruct (decide (hasher = "sha256")); [done|].
    destruct (decide (hasher = "md5")); done.
Qed.

Lemma makepass_NotImplemented_witness :
  znc._makepass tagging_digest round_robin "secret" "sha1" 7
  = (inr znc.NotImplemented, 7).
Proof.
  apply (makepass_NotImplemented tagging_digest round_robin "secret" "sha1" 7
           round_robin_in_range); discriminate.
Defined.

(** ** [version] *)

Lemma one_line_nil : one_line "".
Proof. intros a Ha. by apply elem_of_nil in Ha. Qed.

Lemma one_line_cons a s :
  Ascii.eqb a "010" = false → Ascii.eqb a "013" = false →
  one_line s → one_line (String a s).
Proof.
  intros H1 H2 Hs b Hb. cbn in Hb. apply elem_of_cons in Hb as [-> | Hb]; [|auto].
  apply Ascii.eqb_neq in H1, H2. done.
Qed.

(** The first line that [splitlines] yields. *)
Lemma splitlines_from_head s line :
  match znc.splitlines_from s line with
  | [] => s = "" ∧ line = ""
  | l :: _ =>
      ∃ p rest, s = p +:+ rest ∧ l = line +:+ p ∧ one_line p
                ∧ (rest = "" ∨ at_line_break rest)
  end.
Proof.
  revert line. induction s as [|a s IH]; intros line; cbn [znc.splitlines_from].
  - destruct line as [|b line]; [done|].
    exists "", "". rewrite !str_app_nil_r.
    split_and!; [done | done | apply one_line_nil | by left].
  - destruct (Ascii.eqb a "010") eqn:Hnl.
    { apply Ascii.eqb_eq in Hnl as ->. exists "", (String "010" s).
      rewrite str_app_nil_r. split_and!; [done | done | apply one_line_nil |].
      right. left. by exists s. }
    destruct (Ascii.eqb a "013") eqn:Hcr.
    { apply Ascii.eqb_eq in Hcr as ->.
      assert (∃ p rest, String "013" s = p +:+ rest ∧ line = line +:+ p ∧ one_line p
                        ∧ (rest = "" ∨ at_line_break rest)) as Hhead.
      { exists "", (String "013" s). rewrite str_app_nil_r.
        split_and!; [done | done | apply one_line_nil |]. right. right. by exists s. }
      destruct s as [|b s']; [exact Hhead|].
      destruct (Ascii.eqb b "010"); exact Hhead. }
    specialize (IH (line +:+ String a "")).
    destruct (znc.splitlines_from s (line +:+ String a "")) as [|l ls].
    { destruct IH as [_ Hline]. by apply str_app_snoc_ne in Hline. }
    destruct IH as (p & rest & -> & -> & Hp & Hrest).
    exists (String a p), rest. rewrite str_app_assoc.
    split_and!; [done | done | by apply one_line_cons | done].
Qed.

(** The first piece that [split] yields. *)
Lemma split_on_from_head sep s piece :
  ∃ p rest tail,
    znc.split_on_from sep s 0 piece = (piece +:+ p) :: tail
    ∧ s = p +:+ rest
    ∧ (rest = "" ∨ starts_with sep rest)
    ∧ first_at sep p rest.
Proof.
  revert piece. induction s as [|a s IH]; intros piece; cbn [znc.split_on_from].
  - exists "", "", []. rewrite !str_app_nil_r. split_and!; [done | done | by left |].
    intros v1 v2 Hv Hv2. destruct v1, v2; done.
  - destruct (String.prefix sep (String a s)) eqn:Hprefix.
    + exists "", (String a s). eexists. rewrite str_app_nil_r.
      split_and!; [done | done | right; by apply prefix_starts_with |].
      intros v1 v2 Hv Hv2. destruct v1, v2; done.
    + destruct (IH (piece +:+ String a "")) as (p & rest & tail & -> & -> & Hrest & Hfirst).
      exists (String a p), rest, tail. rewrite str_app_assoc.
      split_and!; [done | done | done |].
      intros v1 v2 Hv Hv2 Hstart. destruct v1 as [|b v1].
      * change ("" +:+ v2) with v2 in Hv. subst v2.
        apply prefix_starts_with in Hstart. rewrite str_app_cons in Hstart.
        congruence.
      * rewrite str_app_cons in Hv. injection Hv as -> ->.
        by apply (Hfirst v1 v2).
Qed.

(** X21.  [version] raises [IndexError] when [znc --version] prints
    nothing, and only then: for any other output it returns a string. *)
Theorem version_raises_iff_no_output cmd_run :
  match znc.version cmd_run with
  | inl e => e = IndexError ∧ cmd_run "znc --version" = ""
  | inr _ => cmd_run "znc --version" ≠ ""
  end.
Proof.
  unfold znc.version, znc.splitlines, znc.split_on.
  pose proof (splitlines_from_head (cmd_run "znc --version") "") as Hhead.
  destruct (znc.splitlines_from (cmd_run "znc --version") "") as [|line ls] eqn:Hlines;
    cbn.
  - destruct Hhead as [Hout _]. done.
  - destruct (split_on_from_head " - " line "") as (p & rest & tail & -> & _).
    cbn. intros Hempty. rewrite Hempty in Hlines. discriminate Hlines.
Qed.

(** X22.  What [version] returns is the beginning of the output of
    [znc --version]: its first line (the text before the first [\n] or
    [\r]), cut before the first [" - "] if the line has one. *)
Theorem version_first_line_before_dash cmd_run v :
  znc.version cmd_run = inr v →
  version_of (cmd_run "znc --version") v.
Proof.
  unfold znc.version, znc.splitlines, znc.split_on.
  pose proof (splitlines_from_head (cmd_run "znc --version") "") as Hhead.
  destruct (znc.splitlines_from (cmd_run "znc --version") "") as [|line ls];
    cbn; [discriminate|].
  destruct (split_on_from_head " - " line "") as (p & rest & tail & -> & Hline & Hrest & Hfirst).
  cbn. intros [= <-].
  destruct Hhead as (q & after_line & Hout & Hq & Hone & Hafter).
  change ("" +:+ q) with q in Hq. subst q.
  exists line, after_line, rest. done.
Qed.

Lemma version_first_line_before_dash_witness :
  version_of
    ("ZNC 1.6.3 - http://znc.in" +:+ String "010" "IPv6: yes, SSL: yes")
    "ZNC 1.6.3".
Proof.
  apply (version_first_line_before_dash
           (λ _, "ZNC 1.6.3 - http://znc.in" +:+ String "010" "IPv6: yes, SSL: yes")
           "ZNC 1.6.3").
  reflexivity.
Defined.
